(** * HRD operations dashboard (app.py): data pipeline

    A shallow embedding of the loader, the sidebar filter and the
    aggregations of [app.py], and the properties of the pipeline
    described in the specification.

    Conventions of the embedding.
    - A Python [str] is a [string] holding its UTF-8 bytes.  The digits
      ['0'..'9'] are the bytes 48..57 and every byte of a non-ASCII code
      point is at least 128, so deleting the non-digits and comparing in
      lexicographic order agree with Python's operations on code points.
    - Numbers in the sheet are integers ([Z], taken unbounded); means and
      ratios are exact rationals ([Qc]) extended with NaN and the two
      infinities.  Rounding of binary floating point is not modelled.
    - A [DataFrame] is its list of column names and its list of rows;
      a row maps column names to cells.
    - Streamlit calls are recorded as a list of events. *)

From stdpp Require Import gmap strings list sorting numbers pretty.
From Stdlib Require Import Ascii QArith Qcanon.

Local Open Scope Z_scope.

(** ** Python values *)

(** A cell of a pandas column. [CNaN] is the missing value. *)
Inductive cell :=
| CInt (z : Z)
| CStr (s : string)
| CNaN.

Global Instance cell_eq_dec : EqDecision cell.
Proof. solve_decision. Defined.

(** The scalar that [Series.apply] hands to the applied function: a column
    of numbers with a missing value is a float64 column, whose numbers
    arrive as floats.  [PyFloat z] is the float of integral value [z]
    (below 10^16 in absolute value, where [str] uses no exponent). *)
Inductive pyval :=
| PyStr (s : string)
| PyInt (z : Z)
| PyFloat (z : Z)
| PyNaN.

(** [str(v)] *)
Definition py_str (v : pyval) : string :=
  match v with
  | PyStr s => s
  | PyInt z => pretty z
  | PyFloat z => pretty z +:+ ".0"
  | PyNaN => "nan"
  end.

Definition is_digit (c : ascii) : bool :=
  let n := N_of_ascii c in ((48 <=? n) && (n <=? 57))%N.

(** [re.sub(r'[^0-9]', '', s)] *)
Fixpoint re_sub_non_digits (s : string) : string :=
  match s with
  | EmptyString => EmptyString
  | String c s' =>
      if is_digit c then String c (re_sub_non_digits s')
      else re_sub_non_digits s'
  end.

(** The strings made of digits only. *)
Inductive digits : string → Prop :=
| digits_nil : digits EmptyString
| digits_cons c s : is_digit c = true → digits s → digits (String c s).

Fixpoint zeros (n : nat) : string :=
  match n with
  | O => EmptyString
  | S n' => String "0" (zeros n')
  end.

(** [s.zfill(width)]: zeros go after a leading sign. *)
Definition zfill (width : nat) (s : string) : string :=
  let pad := zeros (width - String.length s) in
  match s with
  | String c s' =>
      if bool_decide (c = "+"%char ∨ c = "-"%char)
      then String c (pad +:+ s')
      else pad +:+ s
  | EmptyString => pad
  end.

(** ** Loader: month labels (lines 36-45)

    The [except] branch returns the same default as the branch for a label
    without digits; [str] and [re.sub] raise on none of the values above. *)
Definition convert_month (month_str : pyval) : string :=
  let month_num := re_sub_non_digits (py_str month_str) in
  match month_num with
  | EmptyString => "2024-01"
  | _ => "2024-" +:+ zfill 2 month_num
  end.

(** The labels [2024-MM] with MM from 01 to 12. *)
Definition month_labels : list string :=
  ["2024-01"; "2024-02"; "2024-03"; "2024-04"; "2024-05"; "2024-06";
   "2024-07"; "2024-08"; "2024-09"; "2024-10"; "2024-11"; "2024-12"].

Definition is_month_label (s : string) : bool := bool_decide (s ∈ month_labels).

(** The digit runs that spell a month from 1 to 12 in at most two digits. *)
Definition month_digits : list string :=
  ["1"; "2"; "3"; "4"; "5"; "6"; "7"; "8"; "9";
   "01"; "02"; "03"; "04"; "05"; "06"; "07"; "08"; "09"; "10"; "11"; "12"].

(** ** Numeric coercion *)

Fixpoint parse_digits (acc : Z) (s : string) : option Z :=
  match s with
  | EmptyString => Some acc
  | String c s' =>
      if is_digit c
      then parse_digits (10 * acc + (Z.of_N (N_of_ascii c) - 48)) s'
      else None
  end.

(** The text cells read as numbers: a run of decimal digits with an
    optional sign.  (pandas reads further spellings, blanks around the
    number, fractions and exponents; they are outside this model.) *)
Definition parse_number (s : string) : option Z :=
  match s with
  | EmptyString => None
  | String c s' =>
      if bool_decide (c = "-"%char) then
        match s' with EmptyString => None | _ => Z.opp <$> parse_digits 0 s' end
      else if bool_decide (c = "+"%char) then
        match s' with EmptyString => None | _ => parse_digits 0 s' end
      else parse_digits 0 s
  end.

(** [pd.to_numeric(_, errors='coerce')] on one cell. *)
Definition to_numeric (c : cell) : cell :=
  match c with
  | CInt z => CInt z
  | CStr s => match parse_number s with Some z => CInt z | None => CNaN end
  | CNaN => CNaN
  end.

(** [.fillna(v)] on one cell. *)
Definition fillna (v : Z) (c : cell) : cell :=
  match c with
  | CNaN => CInt v
  | _ => c
  end.

Definition notna (c : cell) : bool :=
  match c with CNaN => false | _ => true end.

(** Python's [==] on cells: NaN equals nothing, not even itself. *)
Definition py_eq (a b : cell) : bool :=
  match a, b with
  | CInt x, CInt y => bool_decide (x = y)
  | CStr s, CStr t => bool_decide (s = t)
  | _, _ => false
  end.

(** The order in which pandas sorts group keys: numbers by value, then
    text in lexicographic order, missing values last. *)
Definition cell_le (a b : cell) : Prop :=
  match a, b with
  | CInt x, CInt y => x ≤ y
  | CInt _, _ => True
  | CStr _, CInt _ => False
  | CStr s, CStr t => String.le s t
  | CStr _, CNaN => True
  | CNaN, CNaN => True
  | CNaN, _ => False
  end.

Global Instance cell_le_dec : RelDecision cell_le.
Proof. intros [x|s|] [y|t|]; simpl; apply _. Defined.

Definition cell_lt (a b : cell) : Prop := cell_le a b ∧ a ≠ b.

(** [Series.unique()]: the distinct values in order of first appearance. *)
Fixpoint unique (l : list cell) : list cell :=
  match l with
  | [] => []
  | x :: l' => x :: filter (λ y, y ≠ x) (unique l')
  end.

Definition is_str (c : cell) : bool :=
  match c with CStr _ => true | _ => false end.

Definition is_int (c : cell) : bool :=
  match c with CInt _ => true | _ => false end.

(** The outcome of [sorted(l)] on a list of pairwise distinct cells.
    Comparing text with a number raises [TypeError].  [<] involving NaN is
    always false, so a list of two or more numbers with a NaN comes back in
    an order that depends on the sorting algorithm: that order is not
    modelled. *)
Inductive sorted_result :=
| SortOk (l : list cell)
| SortTypeError
| SortNotModelled.

Definition sorted (l : list cell) : sorted_result :=
  if bool_decide (length l ≤ 1)%nat then SortOk l
  else if forallb is_str l || forallb is_int l then SortOk (merge_sort cell_le l)
  else if existsb is_str l then SortTypeError
  else SortNotModelled.

(** ** Floating-point results

    The values of means and ratios, finite ones exact. *)
Inductive fnum :=
| FNum (q : Qc)
| FInf
| FNegInf
| FNaN.

Global Instance fnum_eq_dec : EqDecision fnum.
Proof. solve_decision. Defined.

Definition fnum_of_Z (z : Z) : fnum := FNum (Qc_of_Z z).

Definition fneg (x : fnum) : fnum :=
  match x with
  | FNum q => FNum (- q)%Qc
  | FInf => FNegInf
  | FNegInf => FInf
  | FNaN => FNaN
  end.

Definition fadd (x y : fnum) : fnum :=
  match x, y with
  | FNaN, _ | _, FNaN => FNaN
  | FNum a, FNum b => FNum (a + b)%Qc
  | FInf, FNegInf | FNegInf, FInf => FNaN
  | FInf, _ | _, FInf => FInf
  | FNegInf, _ | _, FNegInf => FNegInf
  end.

(** The infinity of the sign of [q], NaN for 0. *)
Definition signed_inf (q : Qc) : fnum :=
  if bool_decide (0 < q)%Qc then FInf
  else if bool_decide (q < 0)%Qc then FNegInf
  else FNaN.

Definition fmul (x y : fnum) : fnum :=
  match x, y with
  | FNaN, _ | _, FNaN => FNaN
  | FNum a, FNum b => FNum (a * b)%Qc
  | FNum a, FInf | FInf, FNum a => signed_inf a
  | FNum a, FNegInf | FNegInf, FNum a => fneg (signed_inf a)
  | FInf, FInf | FNegInf, FNegInf => FInf
  | FInf, FNegInf | FNegInf, FInf => FNegInf
  end.

(** Division as numpy and pandas do it on arrays: dividing by zero raises
    nothing and gives an infinity, or NaN for 0/0. *)
Definition fdiv (x y : fnum) : fnum :=
  match x, y with
  | FNaN, _ | _, FNaN => FNaN
  | FNum a, FNum b =>
      if bool_decide (b = 0)%Qc then signed_inf a else FNum (a / b)%Qc
  | FNum _, _ => FNum 0%Qc
  | FInf, FNum b => if bool_decide (b < 0)%Qc then FNegInf else FInf
  | FNegInf, FNum b => if bool_decide (b < 0)%Qc then FInf else FNegInf
  | _, _ => FNaN
  end.

(** [x > 0] *)
Definition fpos (x : fnum) : bool :=
  match x with
  | FNum q => bool_decide (0 < q)%Qc
  | FInf => true
  | _ => false
  end.

Definition fnotna (x : fnum) : bool :=
  match x with FNaN => false | _ => true end.

(** [Series.sum()] of a float column: missing values are skipped. *)
Definition fsum (l : list fnum) : fnum :=
  foldr fadd (fnum_of_Z 0) (filter (λ x, fnotna x) l).

(** ** Data frames *)

Abbreviation row := (gmap string cell).

Record DataFrame := mkDataFrame {
  columns : list string;
  rows : list row
}.

(** The cell of row [r] in column [c]. *)
Definition at_col (c : string) (r : row) : cell := default CNaN (r !! c).

(** [d[c]] *)
Definition df_col (d : DataFrame) (c : string) : list cell :=
  at_col c <$> rows d.

(** [c in d.columns] *)
Definition has_col (c : string) (d : DataFrame) : bool :=
  bool_decide (c ∈ columns d).

(** [d[c] = ...], the new cell of each row given by [f]: an existing column
    is overwritten in place, a new one is appended. *)
Definition assign (c : string) (f : row → cell) (d : DataFrame) : DataFrame :=
  {| columns := if has_col c d then columns d else columns d ++ [c];
     rows := (λ r, <[c := f r]> r) <$> rows d |}.

(** [d[mask]] for the boolean mask [p]. *)
Definition mask (p : row → bool) (d : DataFrame) : DataFrame :=
  {| columns := columns d;
     rows := filter (λ r, p r) (rows d) |}.

(** [len(d)] *)
Definition len (d : DataFrame) : Z := Z.of_nat (length (rows d)).

(** The number in a cell of a numeric column. *)
Definition cell_value (c : cell) : option Z :=
  match c with CInt z => Some z | _ => None end.

Definition zsum (l : list Z) : Z := foldr Z.add 0 l.

(** [Series.sum()] of a column that went through [to_numeric]: missing
    values are skipped. *)
Definition col_sum (l : list cell) : Z := zsum (omap cell_value l).

(** [Series.mean()]: the mean of the values present, NaN when there are
    none. *)
Definition col_mean (l : list cell) : fnum :=
  let xs := omap cell_value l in
  match xs with
  | [] => FNaN
  | _ => FNum (Qc_of_Z (zsum xs) / Qc_of_Z (Z.of_nat (length xs)))%Qc
  end.

(** [Series.count()] *)
Definition col_count (l : list cell) : Z :=
  Z.of_nat (length (filter (λ c, notna c) l)).

(** Whether pandas holds the column as float64, and the scalar that
    [apply] passes for a cell of the column. *)
Definition is_float64 (l : list cell) : bool :=
  forallb (λ c, negb (is_str c)) l && existsb (λ c, negb (notna c)) l.

Definition to_py (float64 : bool) (c : cell) : pyval :=
  match c with
  | CStr s => PyStr s
  | CInt z => if float64 then PyFloat z else PyInt z
  | CNaN => PyNaN
  end.

(** ** Aggregation *)

Inductive aggfun := AggSum | AggMean | AggCount.

Definition aggregate (f : aggfun) (l : list cell) : fnum :=
  match f with
  | AggSum => fnum_of_Z (col_sum l)
  | AggMean => col_mean l
  | AggCount => fnum_of_Z (col_count l)
  end.

(** A row of an aggregated frame: the group key and the aggregated
    columns. *)
Record agg_row := mkAggRow {
  key : cell;
  vals : gmap string fnum
}.

(** The value of row [a] in column [c]. *)
Definition val (c : string) (a : agg_row) : fnum := default FNaN (vals a !! c).

(** [data[c]] *)
Definition agg_col (data : list agg_row) (c : string) : list fnum :=
  val c <$> data.

(** [data[c] = ...] *)
Definition agg_assign (c : string) (f : agg_row → fnum) (data : list agg_row)
  : list agg_row :=
  (λ a, {| key := key a; vals := <[c := f a]> (vals a) |}) <$> data.

(** The keys of [d.groupby(c)]: rows with a missing key are dropped, the
    remaining distinct keys are sorted. *)
Definition group_keys (c : string) (d : DataFrame) : list cell :=
  merge_sort cell_le (unique (filter (λ k, notna k) (df_col d c))).

(** The rows of the group of key [k]. *)
Definition group (c : string) (k : cell) (d : DataFrame) : DataFrame :=
  mask (λ r, bool_decide (at_col c r = k)) d.

(** [d.groupby(c).agg(spec).reset_index()] *)
Definition groupby_agg (c : string) (spec : list (string * aggfun))
    (d : DataFrame) : list agg_row :=
  (λ k, {| key := k;
           vals := list_to_map
                     ((λ cf, (cf.1, aggregate cf.2 (df_col (group c k d) cf.1)))
                        <$> spec) |})
    <$> group_keys c d.

(** ** Streamlit events and the script monad *)

Inductive message :=
| MissingColumns (missing_columns : list string)
| FileNotFound
| LoadFailed (e : string).

Inductive event :=
| SetPageConfig
| StError (m : message)
| SidebarTitle (s : string)
| Selectbox (label : string) (options : list cell)
| StTitle (s : string)
| StHeader (s : string)
| Metric (label : string) (value : fnum)
| PlotlyChart (title : string) (data : list agg_row)
| StInfo (s : string)
| StDataframe (d : DataFrame).

(** Why a run ends early: [st.stop()], an uncaught [TypeError], or a call
    of [sorted] whose result is not modelled. *)
Inductive halt := StStop | RaiseTypeError | SortWithNaN.

(** A step of the script: the events it emits, and its result unless the
    run ends there. *)
Definition script (A : Type) : Type := list event * (halt + A).

Global Instance script_ret : MRet script := λ A a, ([], inr a).

Global Instance script_bind : MBind script := λ A B f m,
  match m with
  | (out, inl h) => (out, inl h)
  | (out, inr a) => let '(out', r) := f a in (out ++ out', r)
  end.

Definition emit (out : list event) : script unit := (out, inr tt).

(** ** Loader (lines 16-73)

    [st.cache_data] keeps the result of the first call for later runs of
    the script; one run is modelled. *)

(** What [pd.read_excel] finds. *)
Inductive source :=
| NoFile
| Unreadable (e : string)
| Sheet1 (d : DataFrame).

Definition required_columns : list string :=
  ["시작월"; "카테고리1"; "과정유형"; "담당자"; "과정명"; "참석인원"; "이수인원"].

Definition optional_columns : list (string * Z) :=
  [("과정만족도", 0); ("현업적용율", 0); ("교육일수", 0); ("교육시간", 0)].

(** [pd.to_numeric(d[col], errors='coerce').fillna(0)] *)
Definition coerce_fill (col : string) (d : DataFrame) : DataFrame :=
  assign col (λ r, fillna 0 (to_numeric (at_col col r))) d.

(** The body of the loop over [optional_columns]. *)
Definition fill_optional (d : DataFrame) (opt : string * Z) : DataFrame :=
  let '(col, default_value) := opt in
  if has_col col d then coerce_fill col d
  else assign col (λ _, CInt default_value) d.

(** [d['시작월'] = d['시작월'].apply(convert_month)] *)
Definition apply_convert_month (d : DataFrame) : DataFrame :=
  let float64 := is_float64 (df_col d "시작월") in
  assign "시작월"
    (λ r, CStr (convert_month (to_py float64 (at_col "시작월" r)))) d.

(** Lines 35-65: what the loader does to a sheet that has the required
    columns. *)
Definition normalize (d : DataFrame) : DataFrame :=
  let d := apply_convert_month d in
  let d := coerce_fill "참석인원" d in
  let d := coerce_fill "이수인원" d in
  foldl fill_optional d optional_columns.

Definition load_data (src : source) : list event * option DataFrame :=
  match src with
  | NoFile => ([StError FileNotFound], None)
  | Unreadable e => ([StError (LoadFailed e)], None)
  | Sheet1 d =>
      let missing_columns :=
        filter (λ col, col ∉ columns d) required_columns in
      match missing_columns with
      | _ :: _ => ([StError (MissingColumns missing_columns)], None)
      | [] => ([], Some (normalize d))
      end
  end.

(** ** Sidebar and filter (lines 75-109) *)

Record selection := mkSelection {
  selected_month : cell;
  selected_category1 : cell;
  selected_course_type : cell;
  selected_manager : cell
}.

Definition 전체 : cell := CStr "전체".

(** The variables of the script. *)
Record state := mkState {
  df : DataFrame;
  filtered_df : DataFrame
}.

(** [df = load_data()] and [if df is None: st.stop()] *)
Definition load (src : source) : script DataFrame :=
  let '(out, r) := load_data src in
  match r with
  | None => (out, inl StStop)
  | Some d => (out, inr d)
  end.

(** [sorted(d[c].unique())] *)
Definition facet_values (d : DataFrame) (c : string) : script (list cell) :=
  match sorted (unique (df_col d c)) with
  | SortOk l => mret l
  | SortTypeError => ([], inl RaiseTypeError)
  | SortNotModelled => ([], inl SortWithNaN)
  end.

(** One facet of the sidebar: its values, then the select box. *)
Definition facet (d : DataFrame) (c : string) : script unit :=
  values ← facet_values d c;
  emit [Selectbox c (전체 :: values)].

Definition sidebar (d : DataFrame) : script unit :=
  emit [SidebarTitle "필터"];;
  facet d "시작월";;
  facet d "카테고리1";;
  facet d "과정유형";;
  facet d "담당자".

(** [d[d[c] == v]] *)
Definition select_eq (c : string) (v : cell) (d : DataFrame) : DataFrame :=
  mask (λ r, py_eq (at_col c r) v) d.

(** [if v != "전체": d = d[d[c] == v]] *)
Definition filter_facet (c : string) (v : cell) (d : DataFrame) : DataFrame :=
  if negb (py_eq v 전체) then select_eq c v d else d.

(** Lines 101-109; [df.copy()] is a table of its own with the same
    contents. *)
Definition apply_filters (d : DataFrame) (sel : selection) : DataFrame :=
  let filtered_df := d in
  let filtered_df := filter_facet "시작월" (selected_month sel) filtered_df in
  let filtered_df := filter_facet "카테고리1" (selected_category1 sel) filtered_df in
  let filtered_df := filter_facet "과정유형" (selected_course_type sel) filtered_df in
  let filtered_df := filter_facet "담당자" (selected_manager sel) filtered_df in
  filtered_df.

(** ** 1. Overview: the KPI cards (lines 114-138) *)

(** Line 125. *)
Definition completion_rate (d : DataFrame) : fnum :=
  if bool_decide (0 < col_sum (df_col d "참석인원"))
  then fmul (fdiv (fnum_of_Z (col_sum (df_col d "이수인원")))
                  (fnum_of_Z (col_sum (df_col d "참석인원"))))
            (fnum_of_Z 100)
  else fnum_of_Z 0.

(** [if d[c].sum() > 0: st.metric(label, value)] *)
Definition metric_if_any (d : DataFrame) (c label : string) (value : fnum)
  : list event :=
  if bool_decide (0 < col_sum (df_col d c)) then [Metric label value] else [].

Definition overview (s : state) : script state :=
  let d := filtered_df s in
  emit [StHeader "1. 전체 운영 실적 개요"];;
  emit [Metric "총 과정 수" (fnum_of_Z (len d));
        Metric "총 참석인원" (fnum_of_Z (col_sum (df_col d "참석인원")))];;
  emit [Metric "총 이수인원" (fnum_of_Z (col_sum (df_col d "이수인원")));
        Metric "전체 수료율" (completion_rate d)];;
  emit (metric_if_any d "과정만족도" "평균 과정 만족도"
          (col_mean (df_col d "과정만족도")));;
  emit (metric_if_any d "현업적용율" "평균 현업 적용율"
          (col_mean (df_col d "현업적용율")));;
  emit (metric_if_any d "교육일수" "총 교육 일수"
          (fnum_of_Z (col_sum (df_col d "교육일수"))));;
  emit (metric_if_any d "교육시간" "총 교육 시간"
          (fnum_of_Z (col_sum (df_col d "교육시간"))));;
  mret s.

(** ** 2. By month (lines 140-162) *)

Definition monthly_data (d : DataFrame) : list agg_row :=
  groupby_agg "시작월"
    [("참석인원", AggSum); ("이수인원", AggSum);
     ("과정만족도", AggMean); ("현업적용율", AggMean)] d.

Definition monthly (s : state) : script state :=
  let monthly_data := monthly_data (filtered_df s) in
  emit [StHeader "2. 월별 실적 분석"];;
  emit [PlotlyChart "월별 참석/이수 인원 추이" monthly_data];;
  emit (if fpos (fsum (agg_col monthly_data "과정만족도"))
           || fpos (fsum (agg_col monthly_data "현업적용율"))
        then [PlotlyChart "월별 만족도/적용율 추이" monthly_data]
        else []);;
  mret s.

(** ** 3. By category (lines 164-224) *)

Definition score_5 : list string := ["과정만족도"; "교육내용"; "교육방법"].
Definition score_pct : list string := ["긍정응답율"; "과정NPS"; "현업적용"].
Definition 성과지표 : list string := score_5 ++ score_pct.

(** The body of the loop of lines 171-174, which writes to [filtered_df]. *)
Definition prepare_metric (d : DataFrame) (col : string) : DataFrame :=
  let d := if has_col col d then d else assign col (λ _, CNaN) d in
  assign col (λ r, to_numeric (at_col col r)) d.

Definition prepare_metrics (d : DataFrame) : DataFrame :=
  foldl prepare_metric d 성과지표.

Definition category_spec : list (string * aggfun) :=
  [("참석인원", AggSum); ("이수인원", AggSum);
   ("과정만족도", AggMean); ("교육내용", AggMean); ("교육방법", AggMean);
   ("긍정응답율", AggMean); ("과정NPS", AggMean); ("현업적용", AggMean)].

Definition category_data (d : DataFrame) : list agg_row :=
  groupby_agg "카테고리1" category_spec d.

(** The columns of [category_data] after [reset_index]. *)
Definition category_columns : list string := "카테고리1" :: category_spec.*1.

(** Line 197: [data[col].notna().sum() > 0 and data[col].sum() > 0] *)
Definition has_data_5 (data : list agg_row) (col : string) : bool :=
  bool_decide (0 < length (filter (λ x, fnotna x) (agg_col data col)))%nat
  && fpos (fsum (agg_col data col)).

(** The body of the loop over [score_5]. *)
Definition chart_5 (data : list agg_row) (col : string) : list event :=
  if bool_decide (col ∈ category_columns) then
    if has_data_5 data col
    then [PlotlyChart ("카테고리별 " +:+ col +:+ " (평균, 5점 척도)") data]
    else [StInfo ("'" +:+ col +:+ "' 데이터가 없습니다.")]
  else [].

(** The body of the loop over [score_pct]; it adds a column to
    [category_data]. *)
Definition chart_pct (acc : list agg_row * list event) (col : string)
  : list agg_row * list event :=
  let '(data, out) := acc in
  if bool_decide (col ∈ category_columns) then
    let data :=
      agg_assign (col +:+ "_pct") (λ a, fmul (val col a) (fnum_of_Z 100)) data in
    (data,
     out ++ [if fpos (fsum (agg_col data col))
             then PlotlyChart ("카테고리별 " +:+ col +:+ " (평균, %)") data
             else StInfo ("'" +:+ col +:+ "' 데이터가 없습니다.")])
  else (data, out).

Definition by_category (s : state) : script state :=
  emit [StHeader "3. 카테고리별 실적 분석"];;
  let s := {| df := df s; filtered_df := prepare_metrics (filtered_df s) |} in
  let category_data := category_data (filtered_df s) in
  emit [PlotlyChart "카테고리별 참석인원" category_data];;
  emit (concat (chart_5 category_data <$> score_5));;
  emit (foldl chart_pct (category_data, []) score_pct).2;;
  mret s.

(** ** 4. By course type (lines 226-247) *)

Definition agg_spec : list (string * aggfun) :=
  [("참석인원", AggSum); ("이수인원", AggSum);
   ("과정만족도", AggMean); ("현업적용율", AggMean)].

(** [data['수료율'] = data['이수인원'] / data['참석인원'] * 100] *)
Definition add_completion_rate (data : list agg_row) : list agg_row :=
  agg_assign "수료율"
    (λ a, fmul (fdiv (val "이수인원" a) (val "참석인원" a)) (fnum_of_Z 100)) data.

Definition course_type_data (d : DataFrame) : list agg_row :=
  groupby_agg "과정유형" agg_spec d.

Definition by_course_type (s : state) : script state :=
  let course_type_data := course_type_data (filtered_df s) in
  emit [StHeader "4. 과정 유형별 실적 분석"];;
  emit [PlotlyChart "과정 유형별 참석인원 비중" course_type_data];;
  let course_type_data := add_completion_rate course_type_data in
  emit [PlotlyChart "과정 유형별 수료율" course_type_data];;
  mret s.

(** ** 5. By manager (lines 249-272) *)

Definition manager_data (d : DataFrame) : list agg_row :=
  groupby_agg "담당자" (("과정명", AggCount) :: agg_spec) d.

Definition by_manager (s : state) : script state :=
  let manager_data := manager_data (filtered_df s) in
  emit [StHeader "5. 담당자별 실적 분석"];;
  emit [PlotlyChart "담당자별 관리 과정 수" manager_data];;
  let manager_data := add_completion_rate manager_data in
  emit [PlotlyChart "담당자별 수료율" manager_data];;
  mret s.

(** ** The detail table and the whole script *)

Definition detail (s : state) : script state :=
  emit [StHeader "상세 데이터"; StDataframe (filtered_df s)];;
  mret s.

(** The sections that follow the filter, in the order of the script. *)
Definition render (s : state) : script state :=
  emit [StTitle "HRD 운영 실적 대시보드"];;
  s ← overview s;
  s ← monthly s;
  s ← by_category s;
  s ← by_course_type s;
  s ← by_manager s;
  detail s.

(** One run of the script for the selection [sel] of the sidebar. *)
Definition run_app (src : source) (sel : selection) : script state :=
  emit [SetPageConfig];;
  d ← load src;
  sidebar d;;
  render {| df := d; filtered_df := apply_filters d sel |}.

(** ** Vocabulary of the properties *)

(** The four facets of the sidebar with the values selected for them. *)
Definition facets (sel : selection) : list (string * cell) :=
  [("시작월", selected_month sel); ("카테고리1", selected_category1 sel);
   ("과정유형", selected_course_type sel); ("담당자", selected_manager sel)].

(** Row [r] passes the facet of column [cv.1] set to [cv.2]. *)
Definition facet_ok (r : row) (cv : string * cell) : bool :=
  py_eq cv.2 전체 || py_eq (at_col cv.1 r) cv.2.

(** Row [r] passes every facet of [sel]. *)
Definition selected (sel : selection) (r : row) : bool :=
  forallb (facet_ok r) (facets sel).

(** The select boxes among the events: label and options. *)
Definition selectboxes (out : list event) : list (string * list cell) :=
  omap (λ e, match e with Selectbox label options => Some (label, options)
             | _ => None end) out.

(** The variables at the end of a run that reached the end of the script. *)
Definition final_state (r : script state) : option state :=
  match r.2 with
  | inr s => Some s
  | inl _ => None
  end.


(** The filtered table of a run over a sheet that has the required
    columns. *)
Definition filtered_sheet (d : DataFrame) (sel : selection) : DataFrame :=
  apply_filters (normalize d) sel.

(** [d.dropna(subset=[c])]: the rows whose cell in column [c] is present;
    these are the rows that [groupby(c)] puts in a group. *)
Definition dropna (c : string) (d : DataFrame) : DataFrame :=
  mask (λ r, notna (at_col c r)) d.

(** [data] has one row for each key present in column [c] of [d], in
    ascending order of the keys. *)
Definition one_row_per_key (data : list agg_row) (c : string) (d : DataFrame)
  : Prop :=
  NoDup (key <$> data)
  ∧ (∀ k, k ∈ key <$> data ↔ k ∈ df_col d c ∧ k ≠ CNaN)
  ∧ StronglySorted cell_lt (key <$> data).


(** The data of the chart of title [title] among the events. *)
Definition chart_data (title : string) (out : list event)
  : option (list agg_row) :=
  head (omap (λ e, match e with
                   | PlotlyChart t data =>
                       if bool_decide (t = title) then Some data else None
                   | _ => None
                   end) out).

(** ** Vocabulary of the further properties *)

(** The columns that the loader writes, in the order in which it writes
    them. *)
Definition loader_columns : list string :=
  ["시작월"; "참석인원"; "이수인원"; "과정만족도"; "현업적용율"; "교육일수"; "교육시간"].

(** A month label as the loader writes it: "2024-" and two digits or
    more. *)
Definition month_written (c : cell) : Prop :=
  ∃ s, c = CStr ("2024-" +:+ s) ∧ digits s ∧ (2 ≤ String.length s)%nat.

(** The column names after [d[c] = ...]. *)
Definition with_column (cols : list string) (c : string) : list string :=
  if bool_decide (c ∈ cols) then cols else cols ++ [c].

(** The columns of a loaded table that the script sums or averages. *)
Definition numeric_columns : list string :=
  ["참석인원"; "이수인원"; "과정만족도"; "현업적용율"; "교육일수"; "교육시간"].


(** What the sections after the filter show for a table without rows. *)
Definition empty_rendering (prepared : DataFrame) : list event :=
  [StTitle "HRD 운영 실적 대시보드";
   StHeader "1. 전체 운영 실적 개요";
   Metric "총 과정 수" (fnum_of_Z 0);
   Metric "총 참석인원" (fnum_of_Z 0);
   Metric "총 이수인원" (fnum_of_Z 0);
   Metric "전체 수료율" (fnum_of_Z 0);
   StHeader "2. 월별 실적 분석";
   PlotlyChart "월별 참석/이수 인원 추이" [];
   StHeader "3. 카테고리별 실적 분석";
   PlotlyChart "카테고리별 참석인원" [];
   StInfo "'과정만족도' 데이터가 없습니다.";
   StInfo "'교육내용' 데이터가 없습니다.";
   StInfo "'교육방법' 데이터가 없습니다.";
   StInfo "'긍정응답율' 데이터가 없습니다.";
   StInfo "'과정NPS' 데이터가 없습니다.";
   StInfo "'현업적용' 데이터가 없습니다.";
   StHeader "4. 과정 유형별 실적 분석";
   PlotlyChart "과정 유형별 참석인원 비중" [];
   PlotlyChart "과정 유형별 수료율" [];
   StHeader "5. 담당자별 실적 분석";
   PlotlyChart "담당자별 관리 과정 수" [];
   PlotlyChart "담당자별 수료율" [];
   StHeader "상세 데이터";
   StDataframe prepared].

(** The headers among the events. *)
Definition headers (out : list event) : list string :=
  omap (λ e, match e with StHeader s => Some s | _ => None end) out.


(** * Sample sheets *)

(** The sheet of two courses used in the examples: the first row is the
    scenario of the specification, the second has no attendance count and
    no completion. *)
Definition sheet : DataFrame :=
  mkDataFrame required_columns
    [list_to_map [("시작월", CStr "03월"); ("카테고리1", CStr "리더십");
                  ("과정유형", CStr "집합"); ("담당자", CStr "나");
                  ("과정명", CStr "신임 팀장"); ("참석인원", CStr "12");
                  ("이수인원", CStr "10")];
     list_to_map [("시작월", CInt 4); ("카테고리1", CStr "직무");
                  ("과정유형", CStr "온라인"); ("담당자", CStr "가");
                  ("과정명", CStr "데이터 분석"); ("참석인원", CNaN);
                  ("이수인원", CInt 0)]].


(** A sheet whose manager column is empty. *)
Definition sheet_no_manager : DataFrame :=
  mkDataFrame required_columns
    [list_to_map [("시작월", CStr "05월"); ("카테고리1", CStr "직무");
                  ("과정유형", CStr "집합"); ("담당자", CNaN);
                  ("과정명", CStr "안전 교육"); ("참석인원", CInt 5);
                  ("이수인원", CInt 5)]].

(** A sheet whose manager column is empty in one row only. *)
Definition sheet_some_manager : DataFrame :=
  mkDataFrame required_columns
    [list_to_map [("시작월", CStr "05월"); ("카테고리1", CStr "직무");
                  ("과정유형", CStr "집합"); ("담당자", CNaN);
                  ("과정명", CStr "안전 교육"); ("참석인원", CInt 5);
                  ("이수인원", CInt 5)];
     list_to_map [("시작월", CStr "06월"); ("카테고리1", CStr "직무");
                  ("과정유형", CStr "집합"); ("담당자", CStr "가");
                  ("과정명", CStr "보안 교육"); ("참석인원", CInt 7);
                  ("이수인원", CInt 6)]].

(** A sheet without the two count columns. *)
Definition sheet_no_counts : DataFrame :=
  mkDataFrame ["시작월"; "카테고리1"; "과정유형"; "담당자"; "과정명"] [].

(** Every facet on "no filter". *)
Definition no_filter : selection := mkSelection 전체 전체 전체 전체.

(** The variables at the end of the run over [sheet] without any filter. *)
Definition sheet_final : state :=
  {| df := normalize sheet;
     filtered_df := prepare_metrics (apply_filters (normalize sheet) no_filter) |}.

(** The variables after the filter in a run over [sheet] with the category
    set to a value that no row has. *)
Definition sheet_filtered_out : state :=
  {| df := normalize sheet;
     filtered_df :=
       apply_filters (normalize sheet) (mkSelection 전체 (CStr "영업") 전체 전체) |}.

(** * Properties *)

(** ** Month labels *)

Lemma is_digit_not_sign c :
  is_digit c = true → ¬ (c = "+"%char ∨ c = "-"%char).
Proof. intros Hd [-> | ->]; vm_compute in Hd; discriminate. Qed.

Lemma re_sub_non_digits_digits s : digits (re_sub_non_digits s).
Proof.
  induction s as [|c s IH]; simpl; [constructor|].
  destruct (is_digit c) eqn:Hc; [by constructor | done].
Qed.

Lemma zfill_digits n s : digits s → zfill n s = zeros (n - String.length s) +:+ s.
Proof.
  intros [|c s' Hc _]; unfold zfill; simpl.
  - generalize (n - 0)%nat. intros m. induction m as [|m IH]; [done|].
    simpl. unfold String.app in *. simpl. by rewrite <- IH.
  - rewrite bool_decide_eq_false_2; [done | by apply is_digit_not_sign].
Qed.

Lemma convert_month_digits v :
  re_sub_non_digits (py_str v) ≠ "" →
  convert_month v = "2024-" +:+ zfill 2 (re_sub_non_digits (py_str v)).
Proof. unfold convert_month. by destruct (re_sub_non_digits _). Qed.

Lemma convert_month_no_digits v :
  re_sub_non_digits (py_str v) = "" → convert_month v = "2024-01".
Proof. unfold convert_month. by intros ->. Qed.

Lemma month_label_digits d :
  digits d → d ≠ "" →
  ("2024-" +:+ zfill 2 d) ∈ month_labels ↔ d ∈ month_digits.
Proof.
  intros Hd Hne. rewrite zfill_digits by done.
  unfold month_labels, month_digits, String.app.
  destruct Hd as [|c1 d1 Hc1 Hd]; [done|].
  destruct Hd as [|c2 d2 Hc2 Hd].
  { simpl. set_unfold. split; intros H; destruct_or!; simplify_eq; try tauto.
    all: by vm_compute in Hc1. }
  destruct Hd as [|c3 d3 _ _];
    simpl; set_unfold; split; intros H; destruct_or!; simplify_eq; tauto.
Qed.

(** C1, as the code has it: a label without a digit becomes "2024-01"; a
    label with digits becomes "2024-" followed by all its digits, padded
    with zeros on the left to two characters; the result is one of 2024-01
    to 2024-12 exactly when the label has no digit or its digits spell a
    month from 1 to 12 in at most two digits. *)
Theorem convert_month_spec v :
  let d := re_sub_non_digits (py_str v) in
  (d = "" → convert_month v = "2024-01")
  ∧ (d ≠ "" → convert_month v = "2024-" +:+ zfill 2 d)
  ∧ (is_month_label (convert_month v) = true ↔ d = "" ∨ d ∈ month_digits).
Proof.
  intros d. split; [apply convert_month_no_digits|].
  split; [apply convert_month_digits|].
  unfold is_month_label. rewrite bool_decide_eq_true.
  destruct (decide (d = "")) as [Hd|Hd].
  - rewrite convert_month_no_digits by done. split; [by left|].
    intros _. unfold month_labels. set_solver.
  - rewrite convert_month_digits by done. fold d.
    rewrite month_label_digits; [|apply re_sub_non_digits_digits|done].
    tauto.
Qed.

(** The scenario of the specification, and a month number read from a
    numeric column with an empty cell, which arrives as the float 3.0. *)
Example convert_month_samples :
  convert_month (PyStr "03월") = "2024-03"
  ∧ convert_month (PyInt 3) = "2024-03"
  ∧ convert_month (PyFloat 3) = "2024-30"
  ∧ convert_month PyNaN = "2024-01"
  ∧ convert_month (PyStr "Jan") = "2024-01".
Proof. by vm_compute. Qed.

(** C1 as stated fails: the label "13월" has digits and is not turned into
    a month from 01 to 12. *)
Lemma convert_month_out_of_range :
  re_sub_non_digits (py_str (PyStr "13월")) ≠ ""
  ∧ convert_month (PyStr "13월") = "2024-13"
  ∧ is_month_label (convert_month (PyStr "13월")) = false.
Proof. by vm_compute. Qed.

(** ** Data frames *)

Lemma at_col_insert_eq c x (r : gmap string cell) : at_col c (<[c := x]> r) = x.
Proof. unfold at_col. by rewrite lookup_insert_eq. Qed.

Lemma at_col_insert_ne c c' x (r : gmap string cell) :
  c ≠ c' → at_col c' (<[c := x]> r) = at_col c' r.
Proof. intros. unfold at_col. by rewrite lookup_insert_ne. Qed.

Lemma df_col_assign_eq c f d : df_col (assign c f d) c = f <$> rows d.
Proof.
  unfold df_col, assign; simpl. rewrite <- list_fmap_compose.
  apply list_fmap_ext. intros _ r _. apply at_col_insert_eq.
Qed.

Lemma df_col_assign_ne c c' f d :
  c ≠ c' → df_col (assign c f d) c' = df_col d c'.
Proof.
  intros Hne. unfold df_col, assign; simpl. rewrite <- list_fmap_compose.
  apply list_fmap_ext. intros _ r _. by apply at_col_insert_ne.
Qed.

Lemma elem_of_columns_assign c c' f d :
  c' ∈ columns (assign c f d) ↔ c' ∈ columns d ∨ c' = c.
Proof.
  unfold assign, has_col; simpl. case_bool_decide as Hc.
  - split; [by left | intros [?| ->]; done].
  - rewrite elem_of_app, list_elem_of_singleton. done.
Qed.

Lemma length_rows_assign c f d : length (rows (assign c f d)) = length (rows d).
Proof. unfold assign; simpl. apply length_fmap. Qed.

(** ** Loader: coercion of the counts, required columns *)

Lemma df_col_coerce_fill_eq c d :
  df_col (coerce_fill c d) c = (λ x, fillna 0 (to_numeric x)) <$> df_col d c.
Proof.
  unfold coerce_fill. rewrite df_col_assign_eq. unfold df_col.
  by rewrite <- list_fmap_compose.
Qed.

Lemma df_col_fill_optional d opt c :
  c ≠ opt.1 → df_col (fill_optional d opt) c = df_col d c.
Proof.
  destruct opt as [col v]; simpl. intros Hne. unfold coerce_fill.
  destruct (has_col col d); by rewrite df_col_assign_ne.
Qed.

Lemma df_col_fill_optionals opts d c :
  c ∉ opts.*1 → df_col (foldl fill_optional d opts) c = df_col d c.
Proof.
  revert d. induction opts as [|opt opts IH]; intros d Hc; [done|].
  rewrite fmap_cons, not_elem_of_cons in Hc. destruct Hc as [Hne Hc].
  simpl. rewrite IH by done. by apply df_col_fill_optional.
Qed.

Lemma load_data_Some src out d' :
  load_data src = (out, Some d') →
  ∃ d, src = Sheet1 d ∧ out = [] ∧ d' = normalize d
       ∧ filter (λ col, col ∉ columns d) required_columns = [].
Proof.
  destruct src as [| |d]; [done..|]. unfold load_data.
  destruct (filter _ required_columns) eqn:Hm; [|done].
  intros H. exists d.
  pose proof (f_equal fst H) as Hout. pose proof (f_equal snd H) as Hd.
  cbn [fst snd] in Hout, Hd. apply (inj Some) in Hd. by rewrite Hm.
Qed.

Lemma df_col_normalize_count d c :
  c ∈ ["참석인원"; "이수인원"] →
  df_col (normalize d) c = (λ x, fillna 0 (to_numeric x)) <$> df_col d c.
Proof.
  intros Hc. unfold normalize.
  apply elem_of_cons in Hc as [-> | Hc];
    [|apply list_elem_of_singleton in Hc as ->];
    (rewrite df_col_fill_optionals by compute_done).
  - unfold coerce_fill at 1. rewrite df_col_assign_ne by done.
    rewrite df_col_coerce_fill_eq. unfold apply_convert_month.
    by rewrite df_col_assign_ne.
  - rewrite df_col_coerce_fill_eq. unfold coerce_fill.
    rewrite df_col_assign_ne by done. unfold apply_convert_month.
    by rewrite df_col_assign_ne.
Qed.




(** The scenario of the specification: the first row of [sheet]. *)
Example normalize_sample :
  head (df_col (normalize sheet) "시작월") = Some (CStr "2024-03")
  ∧ head (df_col (normalize sheet) "참석인원") = Some (CInt 12)
  ∧ head (df_col (normalize sheet) "이수인원") = Some (CInt 10).
Proof. by vm_compute. Qed.

(** C8: when a required column is absent, the loader reports the required
    columns that the sheet lacks, and only those, and returns no table; the
    script stops there, before the sidebar, the filter and every section. *)
Theorem load_data_missing_columns d sel :
  (∃ col, col ∈ required_columns ∧ col ∉ columns d) →
  ∃ missing,
    load_data (Sheet1 d) = ([StError (MissingColumns missing)], None)
    ∧ (∀ col, col ∈ missing ↔ col ∈ required_columns ∧ col ∉ columns d)
    ∧ run_app (Sheet1 d) sel
      = ([SetPageConfig; StError (MissingColumns missing)], inl StStop).
Proof.
  intros (col & Hreq & Hcol).
  exists (filter (λ col, col ∉ columns d) required_columns).
  assert (∀ col, col ∈ filter (λ col, col ∉ columns d) required_columns
                 ↔ col ∈ required_columns ∧ col ∉ columns d) as Hmem.
  { intros c. rewrite list_elem_of_filter. tauto. }
  assert (load_data (Sheet1 d)
          = ([StError (MissingColumns
                (filter (λ col, col ∉ columns d) required_columns))], None))
    as Hload.
  { unfold load_data.
    destruct (filter _ required_columns) as [|c l] eqn:Hm; [|done].
    exfalso. eapply not_elem_of_nil. apply Hmem. eauto. }
  split_and!; [done..|].
  unfold run_app, load. cbn [mbind script_bind emit]. by rewrite Hload.
Qed.

(** The theorem at a sheet without the two count columns. *)
Lemma load_data_missing_columns_witness :
  ∃ missing,
    load_data (Sheet1 sheet_no_counts)
    = ([StError (MissingColumns missing)], None)
    ∧ (∀ col, col ∈ missing
              ↔ col ∈ required_columns ∧ col ∉ columns sheet_no_counts)
    ∧ run_app (Sheet1 sheet_no_counts) no_filter
      = ([SetPageConfig; StError (MissingColumns missing)], inl StStop).
Proof.
  apply (load_data_missing_columns sheet_no_counts no_filter).
  exists "참석인원". split; compute_done.
Defined.

Example load_data_missing_columns_sample :
  load_data (Sheet1 sheet_no_counts)
  = ([StError (MissingColumns ["참석인원"; "이수인원"])], None).
Proof. reflexivity. Qed.

(** ** Filter *)

Lemma filter_all {A} (P : A → Prop) `{∀ x, Decision (P x)} (l : list A) :
  Forall P l → filter P l = l.
Proof.
  induction 1 as [|x l Hx _ IH]; [done|].
  rewrite filter_cons_True by done. by rewrite IH.
Qed.

Lemma py_eq_eq a b : py_eq a b = true → a = b.
Proof.
  destruct a, b; simpl; try done; intros ?%bool_decide_eq_true; by subst.
Qed.

Lemma py_eq_all v : py_eq v 전체 = true ↔ v = 전체.
Proof.
  split; [apply py_eq_eq|]. intros ->. reflexivity.
Qed.

Lemma columns_filter_facet c v d : columns (filter_facet c v d) = columns d.
Proof. unfold filter_facet. by destruct (negb _). Qed.

Lemma columns_apply_filters d sel : columns (apply_filters d sel) = columns d.
Proof. unfold apply_filters. by rewrite !columns_filter_facet. Qed.

Lemma rows_filter_facet c v d :
  rows (filter_facet c v d) = filter (λ r, facet_ok r (c, v)) (rows d).
Proof.
  unfold filter_facet, facet_ok; simpl. destruct (py_eq v 전체); simpl.
  - symmetry. apply filter_all. by apply Forall_forall.
  - done.
Qed.

Lemma rows_apply_filters d sel :
  rows (apply_filters d sel) = filter (λ r, selected sel r) (rows d).
Proof.
  unfold apply_filters. rewrite !rows_filter_facet, !list_filter_filter.
  apply list_filter_iff. intros r. unfold selected, facets; simpl.
  rewrite andb_true_r, !andb_True. tauto.
Qed.

Lemma selected_facet sel r c v :
  selected sel r = true → (c, v) ∈ facets sel → v ≠ 전체 → at_col c r = v.
Proof.
  unfold selected. rewrite forallb_forall. intros Hall Hin Hv.
  apply list_elem_of_In, Hall in Hin. unfold facet_ok in Hin; simpl in Hin.
  apply orb_true_iff in Hin as [H%py_eq_all | H%py_eq_eq]; done.
Qed.

(** C7: the filter keeps the columns and keeps, in their order, exactly the
    rows that pass every facet; so every row of the filtered table has the
    selected value in each facet that is not on "no filter", the filtered
    table has at most as many rows as the loaded one, and with all four
    facets on "no filter" it is the loaded table. *)
Theorem apply_filters_spec d sel :
  columns (apply_filters d sel) = columns d
  ∧ rows (apply_filters d sel) = filter (λ r, selected sel r) (rows d)
  ∧ (∀ r c v, r ∈ rows (apply_filters d sel) → (c, v) ∈ facets sel →
       v ≠ 전체 → at_col c r = v)
  ∧ rows (apply_filters d sel) `sublist_of` rows d
  ∧ (length (rows (apply_filters d sel)) ≤ length (rows d))%nat
  ∧ (Forall (λ cv, cv.2 = 전체) (facets sel) → apply_filters d sel = d).
Proof.
  split_and!.
  - apply columns_apply_filters.
  - apply rows_apply_filters.
  - intros r c v Hr. rewrite rows_apply_filters in Hr.
    apply list_elem_of_filter in Hr as [Hsel _].
    apply selected_facet. by apply Is_true_true.
  - rewrite rows_apply_filters. apply sublist_filter.
  - rewrite rows_apply_filters. apply length_filter.
  - unfold facets. rewrite !Forall_cons; simpl. intros (Hm & Hc & Ht & Hg & _).
    unfold apply_filters. rewrite Hm, Hc, Ht, Hg. reflexivity.
Qed.

Example apply_filters_sample :
  df_col (apply_filters (normalize sheet)
            (mkSelection 전체 (CStr "직무") 전체 전체)) "과정명"
  = [CStr "데이터 분석"].
Proof. by vm_compute. Qed.

(** ** The script *)

Lemma script_bind_inr {A B} (m : script A) (f : A → script B) out a out' r :
  m = (out, inr a) → f a = (out', r) → m ≫= f = (out ++ out', r).
Proof. intros -> Hf. unfold mbind, script_bind. by rewrite Hf. Qed.

Lemma script_bind_inv {A B} (m : script A) (f : A → script B) out b :
  m ≫= f = (out, inr b) →
  ∃ out1 a out2, m = (out1, inr a) ∧ f a = (out2, inr b) ∧ out = out1 ++ out2.
Proof.
  destruct m as [out1 [h|a]]; unfold mbind, script_bind; [done|].
  destruct (f a) as [out2 r] eqn:Hf. intros H.
  pose proof (f_equal fst H) as H1. pose proof (f_equal snd H) as H2.
  cbn [fst snd] in H1, H2. subst. by exists out1, a, out2.
Qed.

Lemma selectboxes_app out1 out2 :
  selectboxes (out1 ++ out2) = selectboxes out1 ++ selectboxes out2.
Proof. apply omap_app. Qed.

(** Unfolds the binds of a section down to its events and its result. *)
Ltac run_script :=
  cbv [mbind script_bind emit mret script_ret]; cbn beta iota.

Lemma selectboxes_metric_if_any d c label value :
  selectboxes (metric_if_any d c label value) = [].
Proof. unfold metric_if_any. by case_bool_decide. Qed.

(** The sections after the filter emit no select box, and only the section
    by category changes a variable. *)
Lemma overview_spec s :
  ∃ out, overview s = (out, inr s) ∧ selectboxes out = [].
Proof.
  unfold overview. run_script. eexists. split; [reflexivity|].
  rewrite !selectboxes_app, !selectboxes_metric_if_any. reflexivity.
Qed.

Lemma monthly_spec s :
  ∃ out, monthly s = (out, inr s) ∧ selectboxes out = [].
Proof.
  unfold monthly. run_script. eexists. split; [reflexivity|].
  rewrite !selectboxes_app. by destruct (_ || _).
Qed.

Lemma selectboxes_chart_5 data cols :
  selectboxes (concat (chart_5 data <$> cols)) = [].
Proof.
  induction cols as [|col cols IH]; [done|].
  rewrite fmap_cons, concat_cons, selectboxes_app, IH. unfold chart_5.
  case_bool_decide; [|done]. by destruct (has_data_5 data col).
Qed.

Lemma selectboxes_chart_pct cols acc :
  selectboxes acc.2 = [] → selectboxes (foldl chart_pct acc cols).2 = [].
Proof.
  revert acc. induction cols as [|col cols IH]; intros [data out] Hacc; [done|].
  cbn [foldl]. apply IH. unfold chart_pct. case_bool_decide; [|done].
  cbn [snd] in *. rewrite selectboxes_app, Hacc. by destruct (fpos _).
Qed.

Lemma by_category_spec s :
  ∃ out,
    by_category s
    = (out, inr {| df := df s; filtered_df := prepare_metrics (filtered_df s) |})
    ∧ selectboxes out = [].
Proof.
  unfold by_category. run_script. eexists. split; [reflexivity|].
  rewrite !selectboxes_app, selectboxes_chart_5.
  by rewrite selectboxes_chart_pct.
Qed.

Lemma by_course_type_spec s :
  ∃ out, by_course_type s = (out, inr s) ∧ selectboxes out = [].
Proof. unfold by_course_type. run_script. eexists. split; reflexivity. Qed.

Lemma by_manager_spec s :
  ∃ out, by_manager s = (out, inr s) ∧ selectboxes out = [].
Proof. unfold by_manager. run_script. eexists. split; reflexivity. Qed.

Lemma detail_spec s :
  ∃ out, detail s = (out, inr s) ∧ selectboxes out = [].
Proof. unfold detail. run_script. eexists. split; reflexivity. Qed.

Lemma render_spec s :
  ∃ out,
    render s
    = (out, inr {| df := df s; filtered_df := prepare_metrics (filtered_df s) |})
    ∧ selectboxes out = [].
Proof.
  destruct (overview_spec s) as (o1 & H1 & S1).
  destruct (monthly_spec s) as (o2 & H2 & S2).
  destruct (by_category_spec s) as (o3 & H3 & S3).
  set (s' := {| df := df s; filtered_df := prepare_metrics (filtered_df s) |}) in *.
  destruct (by_course_type_spec s') as (o4 & H4 & S4).
  destruct (by_manager_spec s') as (o5 & H5 & S5).
  destruct (detail_spec s') as (o6 & H6 & S6).
  exists ([StTitle "HRD 운영 실적 대시보드"] ++ o1 ++ o2 ++ o3 ++ o4 ++ o5 ++ o6).
  split.
  - unfold render.
    eapply script_bind_inr; [reflexivity|].
    eapply script_bind_inr; [exact H1|].
    eapply script_bind_inr; [exact H2|].
    eapply script_bind_inr; [exact H3|].
    eapply script_bind_inr; [exact H4|].
    eapply script_bind_inr; [exact H5|].
    exact H6.
  - rewrite !selectboxes_app, S1, S2, S3, S4, S5, S6. reflexivity.
Qed.

(** ** Sidebar: the options of the facets *)

Lemma emit_inr out o u : emit out = (o, inr u) → o = out.
Proof. intros H. by pose proof (f_equal fst H). Qed.

Lemma facet_inr d c out u :
  facet d c = (out, inr u) →
  ∃ values, sorted (unique (df_col d c)) = SortOk values
            ∧ out = [Selectbox c (전체 :: values)].
Proof.
  unfold facet, facet_values. destruct (sorted _) as [l| |]; run_script;
    intros H; pose proof (f_equal fst H) as H1; pose proof (f_equal snd H) as H2;
    cbn [fst snd] in H1, H2; [|done..].
  exists l. by subst.
Qed.


(** What a run is made of when it reaches the end of the script. *)
Lemma run_app_inr src sel out s :
  run_app src sel = (out, inr s) →
  ∃ d side rest,
    load_data src = ([], Some d)
    ∧ sidebar d = (side, inr tt)
    ∧ s = {| df := d; filtered_df := prepare_metrics (apply_filters d sel) |}
    ∧ out = SetPageConfig :: side ++ rest
    ∧ selectboxes rest = [].
Proof.
  unfold run_app. intros H.
  apply script_bind_inv in H as (o0 & [] & oa & ->%emit_inr & H & ->).
  apply script_bind_inv in H as (o1 & d & ob & Hload & H & ->).
  apply script_bind_inv in H as (side & [] & rest & Hside & H & ->).
  unfold load in Hload. destruct (load_data src) as [o' [d'|]] eqn:Hl.
  2:{ pose proof (f_equal snd Hload) as Hd. by cbn [snd] in Hd. }
  pose proof (f_equal fst Hload) as Ho. pose proof (f_equal snd Hload) as Hd.
  cbn [fst snd] in Ho, Hd. apply (inj inr) in Hd. subst o' d'.
  apply load_data_Some in Hl as Hl'. destruct Hl' as (d0 & _ & -> & _ & _).
  destruct (render_spec {| df := d; filtered_df := apply_filters d sel |})
    as (rest' & Hr & Hsel).
  rewrite Hr in H.
  pose proof (f_equal fst H) as Ho. pose proof (f_equal snd H) as Hs.
  cbn [fst snd df filtered_df] in Ho, Hs. apply (inj inr) in Hs. subst rest s.
  exists d, side, rest'. by split_and!.
Qed.


(** A manager column that mixes names and empty cells stops the run in the
    sidebar: [sorted] cannot compare a name with NaN. *)
Example sidebar_type_error :
  (run_app (Sheet1 sheet_some_manager) no_filter).2 = inl RaiseTypeError
  ∧ selectboxes (run_app (Sheet1 sheet_some_manager) no_filter).1
    = [("시작월", [전체; CStr "2024-05"; CStr "2024-06"]);
       ("카테고리1", [전체; CStr "직무"]);
       ("과정유형", [전체; CStr "집합"])].
Proof. by vm_compute. Qed.


(** The options of the month facet of [sheet] while the category facet is
    set to one category; the filtered table holds one month only. *)
Example facet_options_sample :
  let sel := mkSelection 전체 (CStr "직무") 전체 전체 in
  (selectboxes (run_app (Sheet1 sheet) sel).1) !! 0%nat
  = Some ("시작월", [전체; CStr "2024-03"; CStr "2024-04"])
  ∧ unique (df_col (apply_filters (normalize sheet) sel) "시작월")
    = [CStr "2024-04"].
Proof. by vm_compute. Qed.

(** ** Category analysis: the metric columns written to [filtered_df] *)

Lemma has_col_assign c c' f d :
  has_col c' (assign c f d) = has_col c' d || bool_decide (c' = c).
Proof.
  apply eq_true_iff_eq. rewrite orb_true_iff. unfold has_col.
  rewrite !bool_decide_eq_true. apply elem_of_columns_assign.
Qed.

Lemma length_rows_prepare_metric d col :
  length (rows (prepare_metric d col)) = length (rows d).
Proof.
  unfold prepare_metric. rewrite length_rows_assign.
  destruct (has_col col d); [done | apply length_rows_assign].
Qed.

Lemma df_col_prepare_metric_ne d col c :
  col ≠ c → df_col (prepare_metric d col) c = df_col d c.
Proof.
  intros Hne. unfold prepare_metric. rewrite df_col_assign_ne by done.
  destruct (has_col col d); [done | by rewrite df_col_assign_ne].
Qed.

Lemma df_col_prepare_metric_eq d col :
  df_col (prepare_metric d col) col
  = if has_col col d then to_numeric <$> df_col d col
    else replicate (length (rows d)) CNaN.
Proof.
  unfold prepare_metric. rewrite df_col_assign_eq.
  destruct (has_col col d).
  - unfold df_col. by rewrite <- list_fmap_compose.
  - unfold assign; simpl. rewrite <- list_fmap_compose.
    induction (rows d) as [|r l IH]; [done|].
    rewrite fmap_cons. cbn [length replicate]. f_equal; [|done].
    unfold compose. by rewrite at_col_insert_eq.
Qed.

Lemma elem_of_columns_prepare_metric d col c :
  c ∈ columns (prepare_metric d col) ↔ c ∈ columns d ∨ c = col.
Proof.
  unfold prepare_metric. rewrite elem_of_columns_assign.
  destruct (has_col col d) eqn:Hc; [done|].
  rewrite elem_of_columns_assign. tauto.
Qed.

Lemma has_col_prepare_metric_ne d col c :
  col ≠ c → has_col c (prepare_metric d col) = has_col c d.
Proof.
  intros Hne. apply eq_true_iff_eq. unfold has_col.
  rewrite !bool_decide_eq_true, elem_of_columns_prepare_metric.
  split; [by intros [?| ->] | by left].
Qed.

Section prepare.
Variable cols : list string.

Lemma length_rows_prepare d :
  length (rows (foldl prepare_metric d cols)) = length (rows d).
Proof.
  revert d. induction cols as [|col l IH]; intros d; [done|].
  simpl. by rewrite IH, length_rows_prepare_metric.
Qed.

Lemma df_col_prepare_other d c :
  c ∉ cols → df_col (foldl prepare_metric d cols) c = df_col d c.
Proof.
  revert d. induction cols as [|col l IH]; intros d Hc; [done|].
  apply not_elem_of_cons in Hc as [Hne Hc]. simpl.
  rewrite IH by done. by apply df_col_prepare_metric_ne.
Qed.

Lemma elem_of_columns_prepare d c :
  c ∈ columns (foldl prepare_metric d cols) ↔ c ∈ columns d ∨ c ∈ cols.
Proof.
  revert d. induction cols as [|col l IH]; intros d; simpl.
  - rewrite elem_of_nil. tauto.
  - rewrite IH, elem_of_columns_prepare_metric, elem_of_cons. tauto.
Qed.

Lemma df_col_prepare_in d c :
  NoDup cols → c ∈ cols →
  df_col (foldl prepare_metric d cols) c
  = if has_col c d then to_numeric <$> df_col d c
    else replicate (length (rows d)) CNaN.
Proof.
  revert d. induction cols as [|col l IH]; intros d Hnd Hc.
  { by apply elem_of_nil in Hc. }
  apply NoDup_cons in Hnd as [Hcol Hnd]. simpl.
  destruct (decide (c = col)) as [->|Hne].
  - clear IH. assert (∀ d', df_col (foldl prepare_metric d' l) col = df_col d' col) as ->.
    { clear d Hc. induction l as [|x l IH]; intros d'; [done|].
      apply not_elem_of_cons in Hcol as [Hx Hcol].
      apply NoDup_cons in Hnd as [_ Hnd]. simpl.
      rewrite IH by done. by apply df_col_prepare_metric_ne. }
    apply df_col_prepare_metric_eq.
  - apply elem_of_cons in Hc as [?|Hc]; [done|].
    rewrite IH by done.
    rewrite has_col_prepare_metric_ne, df_col_prepare_metric_ne by done.
    by rewrite length_rows_prepare_metric.
Qed.
End prepare.

Lemma NoDup_metrics : NoDup 성과지표.
Proof. compute_done. Qed.

(** A run reaches the end of the script when the load succeeds and the
    values of the four facets can be sorted. *)
Lemma run_app_reaches_end src sel out d :
  load_data src = (out, Some d) →
  (sidebar d).2 = inr tt →
  final_state (run_app src sel)
  = Some {| df := d; filtered_df := prepare_metrics (apply_filters d sel) |}.
Proof.
  intros Hload Hside. unfold final_state, run_app, load. rewrite Hload.
  run_script. destruct (sidebar d) as [side r]. cbn [snd] in Hside. subst r.
  destruct (render_spec {| df := d; filtered_df := apply_filters d sel |})
    as (rest & -> & _).
  reflexivity.
Qed.

Lemma final_state_Some (r : script state) s :
  final_state r = Some s → r = (r.1, inr s).
Proof.
  destruct r as [out [h|s']]; unfold final_state; cbn [fst snd]; [done|].
  by intros [= ->].
Qed.

(** C5, as the code has it: the loaded table is never written to, and the
    filter builds [filtered_df] without writing to it; of the sections only
    the one by category writes to [filtered_df]: it adds the metric columns
    that are absent and coerces the six metric columns, leaving the number
    of rows and every other column as they were.  At the end of the run
    [filtered_df] is the filtered table with these columns prepared. *)
Theorem run_app_tables src sel out s :
  run_app src sel = (out, inr s) →
  load_data src = ([], Some (df s))
  ∧ filtered_df s = prepare_metrics (apply_filters (df s) sel)
  ∧ length (rows (filtered_df s)) = length (rows (apply_filters (df s) sel))
  ∧ (∀ c, c ∉ 성과지표 →
       df_col (filtered_df s) c = df_col (apply_filters (df s) sel) c)
  ∧ (∀ c, c ∈ columns (filtered_df s)
          ↔ c ∈ columns (apply_filters (df s) sel) ∨ c ∈ 성과지표)
  ∧ (∀ s0, (overview s0).2 = inr s0 ∧ (monthly s0).2 = inr s0
           ∧ (by_course_type s0).2 = inr s0 ∧ (by_manager s0).2 = inr s0
           ∧ (detail s0).2 = inr s0
           ∧ (by_category s0).2
             = inr {| df := df s0;
                      filtered_df := prepare_metrics (filtered_df s0) |}).
Proof.
  intros (d & side & rest & Hload & Hside & -> & -> & Hrest)%run_app_inr.
  cbn [df filtered_df]. split_and!; [done..| | | |].
  - apply length_rows_prepare.
  - intros c Hc. by apply df_col_prepare_other.
  - intros c. apply elem_of_columns_prepare.
  - intros s0.
    destruct (overview_spec s0) as (? & -> & _).
    destruct (monthly_spec s0) as (? & -> & _).
    destruct (by_course_type_spec s0) as (? & -> & _).
    destruct (by_manager_spec s0) as (? & -> & _).
    destruct (detail_spec s0) as (? & -> & _).
    destruct (by_category_spec s0) as (? & -> & _).
    done.
Qed.

Lemma sheet_reaches_end :
  final_state (run_app (Sheet1 sheet) no_filter) = Some sheet_final.
Proof.
  apply (run_app_reaches_end _ _ []); [reflexivity | by vm_compute].
Qed.

(** The theorem at the run over [sheet] without any filter. *)
Lemma run_app_tables_witness :
  final_state (run_app (Sheet1 sheet) no_filter) = Some sheet_final
  ∧ load_data (Sheet1 sheet) = ([], Some (df sheet_final))
  ∧ filtered_df sheet_final
    = prepare_metrics (apply_filters (df sheet_final) no_filter)
  ∧ length (rows (filtered_df sheet_final))
    = length (rows (apply_filters (df sheet_final) no_filter))
  ∧ (∀ c, c ∉ 성과지표 →
       df_col (filtered_df sheet_final) c
       = df_col (apply_filters (df sheet_final) no_filter) c)
  ∧ (∀ c, c ∈ columns (filtered_df sheet_final)
          ↔ c ∈ columns (apply_filters (df sheet_final) no_filter) ∨ c ∈ 성과지표)
  ∧ (∀ s0, (overview s0).2 = inr s0 ∧ (monthly s0).2 = inr s0
           ∧ (by_course_type s0).2 = inr s0 ∧ (by_manager s0).2 = inr s0
           ∧ (detail s0).2 = inr s0
           ∧ (by_category s0).2
             = inr {| df := df s0;
                      filtered_df := prepare_metrics (filtered_df s0) |}).
Proof.
  split; [exact sheet_reaches_end|].
  exact (run_app_tables (Sheet1 sheet) no_filter _ _
           (final_state_Some _ _ sheet_reaches_end)).
Defined.

(** C5 as stated fails: after the run over [sheet], [filtered_df] has five
    columns more than when the filter completed. *)
Lemma category_analysis_adds_columns :
  columns (apply_filters (normalize sheet) no_filter)
  = ["시작월"; "카테고리1"; "과정유형"; "담당자"; "과정명"; "참석인원"; "이수인원";
     "과정만족도"; "현업적용율"; "교육일수"; "교육시간"]
  ∧ (λ s, columns (filtered_df s)) <$> final_state (run_app (Sheet1 sheet) no_filter)
    = Some ["시작월"; "카테고리1"; "과정유형"; "담당자"; "과정명"; "참석인원"; "이수인원";
            "과정만족도"; "현업적용율"; "교육일수"; "교육시간";
            "교육내용"; "교육방법"; "긍정응답율"; "과정NPS"; "현업적용"].
Proof. by vm_compute. Qed.

(** ** Category analysis: the two coercion policies and the charts *)

Lemma elem_of_columns_fill_optional d opt c :
  c ∈ columns (fill_optional d opt) ↔ c ∈ columns d ∨ c = opt.1.
Proof.
  destruct opt as [col v]. unfold fill_optional, coerce_fill.
  destruct (has_col col d); apply elem_of_columns_assign.
Qed.

Lemma elem_of_columns_fill_optionals opts d c :
  c ∈ columns (foldl fill_optional d opts) ↔ c ∈ columns d ∨ c ∈ opts.*1.
Proof.
  revert d. induction opts as [|opt opts IH]; intros d; simpl.
  - rewrite elem_of_nil. tauto.
  - rewrite IH, elem_of_columns_fill_optional, elem_of_cons. tauto.
Qed.

Lemma elem_of_columns_normalize d c :
  c ∈ columns (normalize d)
  ↔ c ∈ columns d
    ∨ c ∈ ["시작월"; "참석인원"; "이수인원"; "과정만족도"; "현업적용율"; "교육일수"; "교육시간"].
Proof.
  unfold normalize, coerce_fill, apply_convert_month.
  rewrite elem_of_columns_fill_optionals, !elem_of_columns_assign.
  unfold optional_columns. cbn [fmap list_fmap fst].
  rewrite !elem_of_cons. tauto.
Qed.

Lemma has_col_filtered_sheet d sel c :
  has_col c (filtered_sheet d sel) = has_col c (normalize d).
Proof.
  unfold has_col, filtered_sheet.
  by rewrite columns_apply_filters.
Qed.

Lemma Forall_df_col_apply_filters (P : cell → Prop) d sel c :
  Forall P (df_col d c) → Forall P (df_col (apply_filters d sel) c).
Proof.
  unfold df_col. rewrite rows_apply_filters, !Forall_fmap, !Forall_forall.
  intros H r Hr%list_elem_of_filter. apply H, Hr.
Qed.

Lemma df_col_fill_optional_eq d col v :
  Forall (λ c, is_int c = true) (df_col (fill_optional d (col, v)) col).
Proof.
  unfold fill_optional, coerce_fill. destruct (has_col col d);
    rewrite df_col_assign_eq, Forall_fmap; apply Forall_forall; intros r _;
    [|done].
  cbn. destruct (at_col col r) as [z|s|]; cbn; [done| |done].
  by destruct (parse_number s).
Qed.

(** The satisfaction column of a loaded table exists and holds numbers
    only: the loader has filled it with zeros. *)
Lemma satisfaction_normalize d :
  has_col "과정만족도" (normalize d) = true
  ∧ Forall (λ c, is_int c = true) (df_col (normalize d) "과정만족도").
Proof.
  split.
  - apply bool_decide_eq_true, elem_of_columns_normalize. right.
    compute_done.
  - unfold normalize, optional_columns. cbn [foldl].
    rewrite !df_col_fill_optional by (cbn [fst]; done).
    apply df_col_fill_optional_eq.
Qed.

Lemma to_numeric_is_int c : is_int c = true → to_numeric c = c.
Proof. by destruct c. Qed.






(** ** Grouping: the keys *)

Global Instance cell_le_total : Total cell_le.
Proof.
  intros [x|s|] [y|t|]; simpl; try tauto.
  - lia.
  - apply (total String.le).
Qed.

Global Instance cell_le_trans : Transitive cell_le.
Proof.
  intros [x|s|] [y|t|] [z|u|]; simpl; try tauto.
  - lia.
  - apply transitivity.
Qed.

Global Instance cell_le_antisymm : AntiSymm (=) cell_le.
Proof.
  intros [x|s|] [y|t|]; simpl; try tauto.
  - intros. f_equal. lia.
  - intros. f_equal. by apply (anti_symm String.le).
Qed.

Lemma elem_of_unique l x : x ∈ unique l ↔ x ∈ l.
Proof.
  induction l as [|y l IH]; [done|]. simpl.
  rewrite !elem_of_cons, list_elem_of_filter, IH.
  destruct (decide (x = y)); tauto.
Qed.

Lemma NoDup_unique l : NoDup (unique l).
Proof.
  induction l as [|y l IH]; simpl; [constructor|].
  apply NoDup_cons. split; [|by apply NoDup_filter].
  rewrite list_elem_of_filter. by intros [? _].
Qed.

Lemma StronglySorted_strict {A} (R : relation A) (l : list A) :
  StronglySorted R l → NoDup l → StronglySorted (λ a b, R a b ∧ a ≠ b) l.
Proof.
  induction 1 as [|x l Hl IH Hx]; intros Hnd; [constructor|].
  apply NoDup_cons in Hnd as [Hin Hnd]. constructor; [by apply IH|].
  rewrite Forall_forall in Hx |- *. intros y Hy. split; [by apply Hx|].
  by intros ->.
Qed.

Lemma elem_of_group_keys c d k :
  k ∈ group_keys c d ↔ k ∈ df_col d c ∧ k ≠ CNaN.
Proof.
  unfold group_keys. rewrite merge_sort_Permutation, elem_of_unique.
  rewrite list_elem_of_filter. destruct k; simpl; intuition congruence.
Qed.

Lemma NoDup_group_keys c d : NoDup (group_keys c d).
Proof.
  unfold group_keys. rewrite merge_sort_Permutation. apply NoDup_unique.
Qed.

Lemma StronglySorted_group_keys c d : StronglySorted cell_lt (group_keys c d).
Proof.
  apply StronglySorted_strict; [|apply NoDup_group_keys].
  apply StronglySorted_merge_sort; apply _.
Qed.

Lemma key_groupby_agg c spec d : key <$> groupby_agg c spec d = group_keys c d.
Proof.
  unfold groupby_agg. rewrite <- list_fmap_compose.
  rewrite <- (list_fmap_id (group_keys c d)) at 2. by apply list_fmap_ext.
Qed.

Lemma groupby_agg_one_row_per_key c spec d :
  one_row_per_key (groupby_agg c spec d) c d.
Proof.
  unfold one_row_per_key. rewrite key_groupby_agg.
  split_and!; [apply NoDup_group_keys | apply elem_of_group_keys
              | apply StronglySorted_group_keys].
Qed.

(** C4, as the code has it: each of the four aggregations has exactly one
    row for each distinct key that is present in its column (a missing key
    gets no row), and the rows are in ascending order of the keys: numbers
    by value, text in lexicographic order, for the manager as for the
    month, the category and the course type. *)
Theorem aggregations_one_row_per_key d :
  one_row_per_key (monthly_data d) "시작월" d
  ∧ one_row_per_key (category_data d) "카테고리1" d
  ∧ one_row_per_key (course_type_data d) "과정유형" d
  ∧ one_row_per_key (manager_data d) "담당자" d.
Proof. split_and!; apply groupby_agg_one_row_per_key. Qed.

(** C4 as stated fails.  In [sheet] the manager "나" appears before "가",
    and the rows by manager come with "가" first.  In [sheet_no_manager]
    the manager is missing, and there is no row by manager at all. *)
Lemma manager_rows_sorted_by_key :
  unique (df_col (filtered_df sheet_final) "담당자") = [CStr "나"; CStr "가"]
  ∧ key <$> manager_data (filtered_df sheet_final) = [CStr "가"; CStr "나"]
  ∧ unique (df_col (filtered_sheet sheet_no_manager no_filter) "담당자") = [CNaN]
  ∧ key <$> manager_data (filtered_sheet sheet_no_manager no_filter) = [].
Proof. by vm_compute. Qed.

(** ** Grouping: the sums *)

Lemma filter_ext_in {A} (P Q : A → Prop) `{∀ x, Decision (P x)}
    `{∀ x, Decision (Q x)} (l : list A) :
  (∀ x, x ∈ l → P x ↔ Q x) → filter P l = filter Q l.
Proof.
  induction l as [|x l IH]; intros HPQ; [done|].
  rewrite !filter_cons, IH by (intros y Hy; by apply HPQ, list_elem_of_further).
  pose proof (HPQ x (list_elem_of_here x l)).
  destruct (decide (P x)), (decide (Q x)); tauto.
Qed.

Lemma zsum_fmap_add {A} (f g : A → Z) (l : list A) :
  zsum ((λ x, f x + g x) <$> l) = zsum (f <$> l) + zsum (g <$> l).
Proof. induction l as [|x l IH]; [done|]. cbn. unfold zsum in IH. lia. Qed.

Lemma zsum_fmap_zero {A} (l : list A) : zsum ((λ _, 0) <$> l) = 0.
Proof. induction l as [|x l IH]; [done|]. cbn. unfold zsum in IH. lia. Qed.

Lemma zsum_fmap_ext {A} (f g : A → Z) (l : list A) :
  (∀ x, x ∈ l → f x = g x) → zsum (f <$> l) = zsum (g <$> l).
Proof. intros H. f_equal. apply list_fmap_ext. intros i x Hx. apply H. by eapply list_elem_of_lookup_2. Qed.

(** Over a list without duplicates, the sum of [v] at [k0] and 0 elsewhere
    is [v] when [k0] is in the list and 0 otherwise. *)
Lemma zsum_indicator (ks : list cell) k0 v :
  NoDup ks →
  zsum ((λ k, if decide (k0 = k) then v else 0) <$> ks)
  = if decide (k0 ∈ ks) then v else 0.
Proof.
  induction 1 as [|k ks Hk Hnd IH]; [done|]. cbn. fold (zsum ((λ k, if decide (k0 = k) then v else 0) <$> ks)).
  rewrite IH. destruct (decide (k0 = k)) as [->|Hne].
  - rewrite (decide_False (P := k ∈ ks)) by done.
    rewrite (decide_True (P := k ∈ k :: ks)) by apply list_elem_of_here. lia.
  - destruct (decide (k0 ∈ ks)) as [Hin|Hin].
    + rewrite (decide_True (P := k0 ∈ k :: ks))
        by (by apply list_elem_of_further).
      lia.
    + rewrite (decide_False (P := k0 ∈ k :: ks)); [lia|].
      rewrite elem_of_cons. tauto.
Qed.



Lemma fsum_fnum_of_Z (zs : list Z) :
  fsum (fnum_of_Z <$> zs) = fnum_of_Z (zsum zs).
Proof.
  unfold fsum. rewrite filter_all by (by apply Forall_fmap, Forall_true).
  induction zs as [|z zs IH]; [done|]. cbn. unfold zsum in IH. rewrite IH.
  unfold fnum_of_Z. cbn. by rewrite Z2Qc_inj_add.
Qed.

Lemma lookup_agg_vals (spec : list (string * aggfun)) (h : string → aggfun → fnum) m :
  (list_to_map ((λ cf, (cf.1, h cf.1 cf.2)) <$> spec) : gmap string fnum) !! m
  = h m <$> (list_to_map spec : gmap string aggfun) !! m.
Proof.
  induction spec as [|[col f] spec IH]; [cbn; by rewrite !lookup_empty|].
  rewrite fmap_cons, !list_to_map_cons. cbn [fst snd].
  rewrite !lookup_insert. case_decide; [by subst | done].
Qed.

(** The column [m] of an aggregated frame holds, for each key, the
    aggregate of [m] over the group of the key. *)
Lemma agg_col_groupby_agg c spec d m f :
  (list_to_map spec : gmap string aggfun) !! m = Some f →
  agg_col (groupby_agg c spec d) m
  = (λ k, aggregate f (df_col (group c k d) m)) <$> group_keys c d.
Proof.
  intros Hf. unfold agg_col, groupby_agg. rewrite <- list_fmap_compose.
  apply list_fmap_ext. intros _ k _. unfold compose, val. cbn [vals].
  by rewrite (lookup_agg_vals spec (λ col f, aggregate f (df_col (group c k d) col))), Hf.
Qed.







(** ** Completion rates *)


Lemma fdiv_zero x : fdiv x (fnum_of_Z 0) ∈ [FNaN; FInf; FNegInf].
Proof.
  destruct x as [q| | |]; [|compute_done..]. cbn.
  rewrite bool_decide_eq_true_2 by apply Z2Qc_inj_0.
  unfold signed_inf. repeat case_bool_decide; set_solver.
Qed.

Lemma fmul_100 y :
  y ∈ [FNaN; FInf; FNegInf] → fmul y (fnum_of_Z 100) = y.
Proof.
  rewrite !elem_of_cons. intros [->|[->|[->|?%elem_of_nil]]]; done.
Qed.

(** The rates by group are not guarded: a group without attendance gets
    NaN or an infinity. *)
Lemma add_completion_rate_no_attendance data a :
  a ∈ data → val "참석인원" a = fnum_of_Z 0 →
  ∃ a', a' ∈ add_completion_rate data ∧ key a' = key a
        ∧ val "참석인원" a' = fnum_of_Z 0
        ∧ val "수료율" a' ∈ [FNaN; FInf; FNegInf].
Proof.
  intros Ha Hz. eexists. split.
  { unfold add_completion_rate, agg_assign. apply list_elem_of_fmap_2, Ha. }
  cbn [key]. split; [done|]. unfold val in *. cbn [vals].
  rewrite lookup_insert_ne by done. split; [done|].
  rewrite lookup_insert_eq. cbn [default]. rewrite Hz.
  rewrite fmul_100; apply fdiv_zero.
Qed.

(** C2 fails on the code: in the run over [sheet] the course type "온라인"
    and the manager "가" have no attendance, and both charts of completion
    rates show NaN for them, while the KPI card computes 0 for the same
    rows. *)
Theorem group_completion_rate_not_guarded :
  (chart_data "과정 유형별 수료율" (run_app (Sheet1 sheet) no_filter).1
     ≫= λ data, head ((λ a, (key a, val "참석인원" a, val "수료율" a)) <$> data))
  = Some (CStr "온라인", fnum_of_Z 0, FNaN)
  ∧ (chart_data "담당자별 수료율" (run_app (Sheet1 sheet) no_filter).1
       ≫= λ data, head ((λ a, (key a, val "참석인원" a, val "수료율" a)) <$> data))
    = Some (CStr "가", fnum_of_Z 0, FNaN)
  ∧ completion_rate (group "과정유형" (CStr "온라인") (filtered_df sheet_final))
    = fnum_of_Z 0.
Proof. by vm_compute. Qed.

(** * Further properties *)

(** ** Loader: outcomes and the shape of the loaded table *)

Lemma filter_nil_Forall {A} (P : A → Prop) `{∀ x, Decision (P x)} (l : list A) :
  filter P l = [] ↔ Forall (λ x, ¬ P x) l.
Proof.
  induction l as [|x l IH]; [by split; [constructor|]|].
  rewrite filter_cons, Forall_cons. destruct (decide (P x)).
  - split; [done | tauto].
  - rewrite IH. tauto.
Qed.

(** X1: the load of a sheet succeeds exactly when the sheet has every
    required column, and then it emits nothing; every failed load emits one
    error and the run stops after it, before the sidebar. *)
Theorem load_data_outcomes :
  (∀ d, load_data (Sheet1 d) = ([], Some (normalize d))
        ↔ ∀ c, c ∈ required_columns → c ∈ columns d)
  ∧ (∀ src out d, load_data src = (out, Some d) → out = [])
  ∧ (∀ src out, load_data src = (out, None) →
       ∃ m, out = [StError m]
            ∧ ∀ sel, run_app src sel = ([SetPageConfig; StError m], inl StStop)).
Proof.
  split_and!.
  - intros d. unfold load_data.
    destruct (filter _ required_columns) as [|c l] eqn:Hm.
    + split; [|done]. intros _ c Hc.
      apply filter_nil_Forall in Hm. rewrite Forall_forall in Hm.
      destruct (decide (c ∈ columns d)) as [|Hn]; [done|].
      by destruct (Hm c Hc).
    + split; [done|]. intros Hall. exfalso.
      assert (c ∈ filter (λ col, col ∉ columns d) required_columns) as Hc
        by (rewrite Hm; apply list_elem_of_here).
      apply list_elem_of_filter in Hc as [Hn Hc]. by apply Hn, Hall.
  - intros src out d H. by apply load_data_Some in H as (? & _ & -> & _).
  - intros src out H.
    assert (∃ m, load_data src = ([StError m], None)) as [m Hm].
    { destruct src as [| |d]; [by eexists..|]. unfold load_data in *.
      destruct (filter _ required_columns); [done | by eexists]. }
    exists m. rewrite Hm in H. split; [by injection H as <-|].
    intros sel. unfold run_app, load. rewrite Hm. reflexivity.
Qed.

Lemma columns_assign c f d : columns (assign c f d) = with_column (columns d) c.
Proof. reflexivity. Qed.

Lemma columns_fill_optional d opt :
  columns (fill_optional d opt) = with_column (columns d) opt.1.
Proof.
  destruct opt as [col v]. unfold fill_optional, coerce_fill.
  by destruct (has_col col d).
Qed.

Lemma columns_fill_optionals opts d :
  columns (foldl fill_optional d opts) = foldl with_column (columns d) opts.*1.
Proof.
  revert d. induction opts as [|opt opts IH]; intros d; [done|].
  cbn [foldl fmap list_fmap]. by rewrite IH, columns_fill_optional.
Qed.

(** Writing columns of distinct names keeps the columns there are and
    appends the names that are new. *)
Lemma foldl_with_column names cols :
  NoDup names →
  foldl with_column cols names = cols ++ filter (λ c, c ∉ cols) names.
Proof.
  intros Hnd. revert cols. induction Hnd as [|n ns Hn Hnd IH]; intros cols.
  { by rewrite app_nil_r. }
  cbn [foldl]. rewrite IH, filter_cons. unfold with_column.
  case_bool_decide as Hc.
  - by rewrite decide_False by tauto.
  - rewrite decide_True by done. rewrite <- app_assoc. cbn [app]. do 2 f_equal.
    apply filter_ext_in. intros x Hx. rewrite not_elem_of_app.
    rewrite list_elem_of_singleton. split; [tauto|].
    intros ?. split; [done|]. by intros ->.
Qed.

Lemma length_rows_fill_optionals opts d :
  length (rows (foldl fill_optional d opts)) = length (rows d).
Proof.
  revert d. induction opts as [|[col v] opts IH]; intros d; [done|].
  cbn [foldl]. rewrite IH. unfold fill_optional, coerce_fill.
  destruct (has_col col d); apply length_rows_assign.
Qed.

Lemma length_rows_normalize d : length (rows (normalize d)) = length (rows d).
Proof.
  unfold normalize, coerce_fill, apply_convert_month.
  by rewrite length_rows_fill_optionals, !length_rows_assign.
Qed.

Lemma columns_normalize d :
  columns (normalize d)
  = columns d ++ filter (λ c, c ∉ columns d) loader_columns.
Proof.
  rewrite <- foldl_with_column by compute_done.
  unfold normalize, coerce_fill, apply_convert_month.
  by rewrite columns_fill_optionals, !columns_assign.
Qed.

Lemma df_col_normalize_other d c :
  c ∉ loader_columns → df_col (normalize d) c = df_col d c.
Proof.
  intros Hc. unfold loader_columns in Hc.
  rewrite !not_elem_of_cons in Hc. destruct Hc as (?&?&?&?&?&?&?&_).
  unfold normalize, coerce_fill, apply_convert_month.
  rewrite df_col_fill_optionals, !df_col_assign_ne; [done..|].
  unfold optional_columns. cbn [fmap list_fmap fst].
  rewrite !not_elem_of_cons. split_and!; [done..|]. apply not_elem_of_nil.
Qed.

(** X2: the loader keeps the rows one for one, keeps the columns of the
    sheet in their order and appends those of its own seven columns that
    the sheet lacks; the columns it does not write hold the cells of the
    sheet. *)
Theorem normalize_shape d :
  length (rows (normalize d)) = length (rows d)
  ∧ columns (normalize d)
    = columns d ++ filter (λ c, c ∉ columns d) loader_columns
  ∧ (∀ c, c ∉ loader_columns → df_col (normalize d) c = df_col d c).
Proof.
  split_and!; [apply length_rows_normalize | apply columns_normalize
              | apply df_col_normalize_other].
Qed.

(** ** Loader: the month column *)

Lemma digits_zeros_app n s : digits s → digits (zeros n +:+ s).
Proof. intros Hs. induction n as [|n IH]; [done|]. by constructor. Qed.

Lemma length_zeros_app n s :
  String.length (zeros n +:+ s) = (n + String.length s)%nat.
Proof.
  unfold String.app. induction n as [|n IH]; [done|].
  cbn [zeros String.append String.length]. by rewrite IH.
Qed.

Lemma convert_month_written v : month_written (CStr (convert_month v)).
Proof.
  unfold month_written. destruct (decide (re_sub_non_digits (py_str v) = "")) as [He|Hne].
  - rewrite convert_month_no_digits by done. exists "01".
    split; [done|]. split; [|done]. by repeat constructor.
  - rewrite convert_month_digits by done.
    pose proof (re_sub_non_digits_digits (py_str v)) as Hd.
    exists (zfill 2 (re_sub_non_digits (py_str v))). split; [done|].
    rewrite zfill_digits by done. split; [by apply digits_zeros_app|].
    rewrite length_zeros_app. lia.
Qed.

Lemma df_col_normalize_month d :
  df_col (normalize d) "시작월"
  = (λ r, CStr (convert_month
                  (to_py (is_float64 (df_col d "시작월")) (at_col "시작월" r))))
      <$> rows d.
Proof.
  unfold normalize. rewrite df_col_fill_optionals by compute_done.
  unfold coerce_fill. rewrite !df_col_assign_ne by done.
  unfold apply_convert_month. by rewrite df_col_assign_eq.
Qed.

Lemma month_normalize_written d :
  Forall month_written (df_col (normalize d) "시작월").
Proof.
  rewrite df_col_normalize_month. apply Forall_fmap, Forall_true.
  intros r. apply convert_month_written.
Qed.

(** X3: whatever the month cell of the sheet holds, the loader writes
    "2024-" followed by two digits or more; the month column of a loaded
    table holds nothing else. *)
Theorem month_column_written d :
  (∀ v, month_written (CStr (convert_month v)))
  ∧ Forall month_written (df_col (normalize d) "시작월").
Proof.
  split; [apply convert_month_written | apply month_normalize_written].
Qed.

(** ** Loader: the numeric columns *)

Lemma is_int_coerced x : is_int (fillna 0 (to_numeric x)) = true.
Proof. destruct x as [z|s|]; cbn; [done| |done]. by destruct (parse_number s). Qed.

Lemma coerced_is_int x : is_int x = true → fillna 0 (to_numeric x) = x.
Proof. by destruct x. Qed.

Lemma has_col_fill_optional_ne d opt c :
  c ≠ opt.1 → has_col c (fill_optional d opt) = has_col c d.
Proof.
  intros Hne. apply eq_true_iff_eq. unfold has_col.
  rewrite !bool_decide_eq_true, elem_of_columns_fill_optional. tauto.
Qed.

Lemma df_col_fill_optional_self d col v :
  df_col (fill_optional d (col, v)) col
  = if has_col col d then (λ x, fillna 0 (to_numeric x)) <$> df_col d col
    else replicate (length (rows d)) (CInt v).
Proof.
  unfold fill_optional. destruct (has_col col d).
  - apply df_col_coerce_fill_eq.
  - rewrite df_col_assign_eq.
    induction (rows d) as [|r l IH]; [done|]. cbn. by rewrite <- IH.
Qed.

Lemma df_col_fill_optionals_in opts d col v :
  NoDup opts.*1 → (col, v) ∈ opts →
  df_col (foldl fill_optional d opts) col
  = if has_col col d then (λ x, fillna 0 (to_numeric x)) <$> df_col d col
    else replicate (length (rows d)) (CInt v).
Proof.
  revert d. induction opts as [|[c0 v0] opts IH]; intros d Hnd Hin.
  { by apply elem_of_nil in Hin. }
  rewrite fmap_cons in Hnd. apply NoDup_cons in Hnd as [Hc0 Hnd].
  cbn [foldl]. apply elem_of_cons in Hin as [Heq|Hin].
  - injection Heq as -> ->. rewrite df_col_fill_optionals by done.
    apply df_col_fill_optional_self.
  - assert (col ≠ c0) as Hne.
    { intros ->. apply Hc0. apply list_elem_of_fmap. by exists (c0, v). }
    rewrite IH by done.
    rewrite has_col_fill_optional_ne, df_col_fill_optional by done.
    by rewrite <- (length_rows_fill_optionals [(c0, v0)] d).
Qed.

Lemma df_col_normalize_optional d col v :
  (col, v) ∈ optional_columns →
  df_col (normalize d) col
  = if has_col col d then (λ x, fillna 0 (to_numeric x)) <$> df_col d col
    else replicate (length (rows d)) (CInt v).
Proof.
  intros Hin. unfold normalize.
  rewrite (df_col_fill_optionals_in _ _ col v); [|compute_done|done].
  assert (col ∉ ["시작월"; "참석인원"; "이수인원"]) as Hcol.
  { unfold optional_columns in Hin. rewrite !elem_of_cons in Hin.
    destruct_or!; try (by apply elem_of_nil in Hin);
      injection Hin as -> _; compute_done. }
  rewrite !not_elem_of_cons in Hcol. destruct Hcol as (?&?&?&_).
  unfold coerce_fill, apply_convert_month.
  rewrite !has_col_assign, !df_col_assign_ne, !length_rows_assign by done.
  by rewrite !bool_decide_eq_false_2, !orb_false_r by done.
Qed.

Lemma numeric_columns_normalize d c :
  c ∈ numeric_columns →
  has_col c (normalize d) = true
  ∧ Forall (λ x, is_int x = true) (df_col (normalize d) c).
Proof.
  intros Hc.
  assert (c ∈ loader_columns
          ∧ (c ∈ ["참석인원"; "이수인원"] ∨ (c, 0) ∈ optional_columns))
    as [Hload [Hcount|Hopt]].
  { unfold numeric_columns in Hc. rewrite !elem_of_cons in Hc.
    destruct_or!; subst; try (by apply elem_of_nil in Hc);
      (split; [compute_done|]);
      first [left; compute_done | right; compute_done]. }
  all: split;
    [apply bool_decide_eq_true, elem_of_columns_normalize; by right|].
  - rewrite df_col_normalize_count by done. apply Forall_fmap, Forall_true.
    intros x. apply is_int_coerced.
  - rewrite (df_col_normalize_optional _ _ 0) by done.
    destruct (has_col c d).
    + apply Forall_fmap, Forall_true. intros x. apply is_int_coerced.
    + by apply Forall_replicate.
Qed.


(** ** Loader: loading a loaded table again *)

Lemma df_col_normalize_numeric d c :
  c ∈ numeric_columns → has_col c d = true →
  df_col (normalize d) c = (λ x, fillna 0 (to_numeric x)) <$> df_col d c.
Proof.
  intros Hc Hhas.
  assert (c ∈ ["참석인원"; "이수인원"] ∨ (c, 0) ∈ optional_columns)
    as [Hcount|Hopt].
  { unfold numeric_columns in Hc. rewrite !elem_of_cons in Hc.
    destruct_or!; subst; try (by apply elem_of_nil in Hc);
      first [left; compute_done | right; compute_done]. }
  - by apply df_col_normalize_count.
  - by rewrite (df_col_normalize_optional _ _ 0), Hhas.
Qed.

(** X5: coercing a coerced cell changes nothing, and loading a loaded
    table again keeps its columns, its rows and every column but the
    month. *)
Theorem reload_keeps_all_but_month d :
  (∀ x, fillna 0 (to_numeric (fillna 0 (to_numeric x)))
        = fillna 0 (to_numeric x))
  ∧ columns (normalize (normalize d)) = columns (normalize d)
  ∧ length (rows (normalize (normalize d))) = length (rows (normalize d))
  ∧ (∀ c, c ≠ "시작월" →
       df_col (normalize (normalize d)) c = df_col (normalize d) c).
Proof.
  split_and!.
  - intros x. apply coerced_is_int, is_int_coerced.
  - rewrite (columns_normalize (normalize d)).
    rewrite (proj2 (filter_nil_Forall _ _)); [apply app_nil_r|].
    apply Forall_forall. intros c Hc Hn. apply Hn.
    apply elem_of_columns_normalize. by right.
  - apply length_rows_normalize.
  - intros c Hm. destruct (decide (c ∈ numeric_columns)) as [Hc|Hc].
    + destruct (numeric_columns_normalize d c Hc) as [Hhas Hint].
      rewrite df_col_normalize_numeric by done.
      rewrite <- (list_fmap_id (df_col (normalize d) c)) at 2.
      apply Forall_fmap_ext. eapply Forall_impl; [exact Hint|].
      intros x Hx. by apply coerced_is_int.
    + apply df_col_normalize_other. intros Hin. apply Hc.
      unfold loader_columns in Hin.
      by apply elem_of_cons in Hin as [->|Hin].
Qed.

Lemma re_sub_non_digits_id s : digits s → re_sub_non_digits s = s.
Proof. induction 1 as [|c s Hc _ IH]; [done|]. cbn. by rewrite Hc, IH. Qed.

Lemma convert_month_again s :
  digits s → (2 ≤ String.length s)%nat →
  convert_month (PyStr ("2024-" +:+ s)) = "2024-2024" +:+ s
  ∧ is_month_label ("2024-2024" +:+ s) = false.
Proof.
  intros Hd Hlen. split.
  - assert (re_sub_non_digits ("2024-" +:+ s) = "2024" +:+ s) as Hre.
    { unfold String.app. cbn. by rewrite re_sub_non_digits_id. }
    unfold convert_month. cbn [py_str]. rewrite Hre.
    assert (digits ("2024" +:+ s)) as Hd4 by (by repeat constructor).
    unfold String.app at 1. cbn [String.append]. fold (String.app "024" s).
    change (String "2" ("024" +:+ s)) with ("2024" +:+ s).
    rewrite zfill_digits by done. reflexivity.
  - apply bool_decide_eq_false. unfold month_labels, String.app. cbn.
    destruct s as [|c s]; [cbn in Hlen; lia|].
    set_unfold. intros H. destruct_or!; simplify_eq.
Qed.

(** X6: the loader does not undo its own month labels: written to a month
    label of a loaded table, it puts the digits of the year in front of the
    month, and the result is no month label. *)
Theorem month_column_loaded_again d :
  Forall2 (λ old new,
             ∃ s, old = CStr ("2024-" +:+ s)
                  ∧ new = CStr ("2024-2024" +:+ s)
                  ∧ is_month_label ("2024-2024" +:+ s) = false)
    (df_col (normalize d) "시작월")
    (df_col (normalize (normalize d)) "시작월").
Proof.
  rewrite (df_col_normalize_month (normalize d)).
  rewrite (list_fmap_compose (at_col "시작월")
             (λ c, CStr (convert_month
                           (to_py (is_float64 (df_col (normalize d) "시작월")) c)))).
  fold (df_col (normalize d) "시작월").
  apply Forall2_fmap_r, Forall_Forall2_diag.
  generalize (is_float64 (df_col (normalize d) "시작월")). intros b.
  eapply Forall_impl; [apply month_normalize_written|].
  intros old (s & -> & Hd & Hlen). exists s. cbn [to_py].
  destruct (convert_month_again s Hd Hlen) as [-> ->]. done.
Qed.


(** ** Filter: order of the facets, values that keep no row *)

Lemma DataFrame_eq d1 d2 :
  columns d1 = columns d2 → rows d1 = rows d2 → d1 = d2.
Proof. destruct d1, d2. cbn. by intros -> ->. Qed.

Lemma rows_foldr_filter_facet (fs : list (string * cell)) d :
  columns (foldr (λ cv acc, filter_facet cv.1 cv.2 acc) d fs) = columns d
  ∧ rows (foldr (λ cv acc, filter_facet cv.1 cv.2 acc) d fs)
    = filter (λ r, Forall (λ cv, facet_ok r cv) fs) (rows d).
Proof.
  induction fs as [|[c v] fs [IHc IHr]]; cbn [foldr fst snd].
  - split; [done|]. symmetry. apply filter_all, Forall_true. by constructor.
  - rewrite columns_filter_facet, rows_filter_facet, IHr, list_filter_filter.
    split; [done|]. apply list_filter_iff. intros r.
    by rewrite Forall_cons.
Qed.

Lemma selected_Forall sel r :
  selected sel r ↔ Forall (λ cv, facet_ok r cv) (facets sel).
Proof.
  unfold selected. rewrite Is_true_true, forallb_forall, Forall_forall.
  split; intros H cv Hcv.
  - apply Is_true_true, H. by apply list_elem_of_In.
  - apply Is_true_true, H. by apply list_elem_of_In.
Qed.

(** X7: the facets can be applied in any order with the same result, and
    filtering a filtered table with the same selection changes nothing. *)
Theorem filter_order_irrelevant d sel :
  (∀ fs, fs ≡ₚ facets sel →
     foldr (λ cv acc, filter_facet cv.1 cv.2 acc) d fs = apply_filters d sel)
  ∧ apply_filters (apply_filters d sel) sel = apply_filters d sel.
Proof.
  split.
  - intros fs Hfs. destruct (rows_foldr_filter_facet fs d) as [Hc Hr].
    apply DataFrame_eq; [by rewrite columns_apply_filters|].
    rewrite Hr, rows_apply_filters. apply list_filter_iff. intros r.
    by rewrite selected_Forall, Hfs.
  - apply DataFrame_eq; [by rewrite !columns_apply_filters|].
    rewrite !rows_apply_filters, list_filter_filter.
    apply list_filter_iff. tauto.
Qed.

Lemma py_eq_refl v : v ≠ CNaN → py_eq v v = true.
Proof. destruct v; cbn; [by rewrite bool_decide_eq_true_2..|done]. Qed.

(** X8: a facet set to a value that occurs in its column keeps at least
    one row; set to the missing value, which the sidebar offers when the
    column has an empty cell, it keeps no row, whatever the other facets
    are set to. *)
Theorem filter_by_value d :
  (∀ c v, v ∈ df_col d c → v ≠ CNaN → rows (filter_facet c v d) ≠ [])
  ∧ (∀ c, rows (filter_facet c CNaN d) = [])
  ∧ (∀ sel, CNaN ∈ (facets sel).*2 → rows (apply_filters d sel) = []).
Proof.
  split_and!.
  - intros c v Hv Hna. rewrite rows_filter_facet.
    apply list_elem_of_fmap in Hv as (r & -> & Hr).
    intros Hnil. eapply (filter_nil_not_elem_of _ _ r); [exact Hnil| |done].
    unfold facet_ok. cbn [fst snd]. rewrite py_eq_refl by done.
    by rewrite orb_true_r.
  - intros c. rewrite rows_filter_facet. apply filter_nil_Forall, Forall_true.
    intros r. unfold facet_ok. cbn [fst snd].
    destruct (at_col c r); cbn; tauto.
  - intros sel Hnan. rewrite rows_apply_filters.
    apply filter_nil_Forall, Forall_true. intros r Hsel.
    apply selected_Forall in Hsel. rewrite Forall_forall in Hsel.
    apply list_elem_of_fmap in Hnan as ([c v] & Hv & Hin). cbn in Hv. subst v.
    specialize (Hsel _ Hin). unfold facet_ok in Hsel. cbn [fst snd] in Hsel.
    destruct (at_col c r); cbn in Hsel; tauto.
Qed.


(** ** Completion rates: the formula *)








Lemma val_groupby_row c spec d k m f :
  (list_to_map spec : gmap string aggfun) !! m = Some f →
  val m {| key := k;
           vals := list_to_map
                     ((λ cf, (cf.1, aggregate cf.2 (df_col (group c k d) cf.1)))
                        <$> spec) |}
  = aggregate f (df_col (group c k d) m).
Proof.
  intros Hf. unfold val. cbn [vals].
  by rewrite (lookup_agg_vals spec
                (λ col f, aggregate f (df_col (group c k d) col))), Hf.
Qed.




(** ** Grouping: the groups and the counts of courses *)

(** As [group_sums_add_up], for any weight of the rows. *)
Lemma group_weights_add_up c (w : gmap string cell → Z) (ks : list cell)
    (l : list (gmap string cell)) :
  NoDup ks →
  zsum ((λ k, zsum (w <$> filter (λ r, bool_decide (at_col c r = k)) l)) <$> ks)
  = zsum (w <$> filter (λ r, at_col c r ∈ ks) l).
Proof.
  intros Hnd. induction l as [|r l IH].
  { cbn. apply zsum_fmap_zero. }
  rewrite (zsum_fmap_ext _
    (λ k, (if decide (at_col c r = k) then w r else 0)
          + zsum (w <$> filter (λ r, bool_decide (at_col c r = k)) l))).
  2:{ intros k _. rewrite filter_cons.
      destruct (decide (at_col c r = k)) as [Hk|Hk].
      - by rewrite decide_True by (by apply bool_decide_pack).
      - rewrite decide_False; [lia|]. by intros ?%bool_decide_unpack. }
  rewrite zsum_fmap_add, IH, zsum_indicator by done.
  rewrite filter_cons. by destruct (decide (at_col c r ∈ ks)).
Qed.

Lemma col_count_weights m (l : list (gmap string cell)) :
  col_count (at_col m <$> l)
  = zsum ((λ r, if notna (at_col m r) then 1 else 0) <$> l).
Proof.
  unfold col_count. induction l as [|r l IH]; [done|].
  rewrite !fmap_cons, filter_cons. cbn [zsum foldr].
  fold (zsum ((λ r, if notna (at_col m r) then 1 else 0) <$> l)).
  rewrite <- IH. destruct (notna (at_col m r)).
  - rewrite decide_True by done. cbn [length]. lia.
  - rewrite decide_False by tauto. lia.
Qed.

Lemma group_nonempty c d k : k ∈ group_keys c d → rows (group c k d) ≠ [].
Proof.
  intros [Hk _]%elem_of_group_keys.
  apply list_elem_of_fmap in Hk as (r & -> & Hr).
  unfold group, mask. cbn [rows]. intros Hnil.
  eapply (filter_nil_not_elem_of _ _ r); [exact Hnil| |done].
  by apply bool_decide_pack.
Qed.

(** X11: every row of an aggregation stands for a group that has at least
    one row of the table.  The number of courses shown for a manager is the
    number of the manager's rows that have a course name, and over all
    managers these numbers add up to the number of rows that have both a
    manager and a course name. *)
Theorem manager_course_counts d :
  (∀ c spec a, a ∈ groupby_agg c spec d → rows (group c (key a) d) ≠ [])
  ∧ Forall (λ a, val "과정명" a
                 = fnum_of_Z (col_count (df_col (group "담당자" (key a) d) "과정명")))
      (manager_data d)
  ∧ fsum (agg_col (manager_data d) "과정명")
    = fnum_of_Z (col_count (df_col (dropna "담당자" d) "과정명")).
Proof.
  split_and!.
  - intros c spec a Ha. apply group_nonempty.
    rewrite <- (key_groupby_agg c spec). by apply list_elem_of_fmap_2.
  - unfold manager_data, groupby_agg. apply Forall_fmap, Forall_true.
    intros k. unfold compose. cbn [key].
    by rewrite (val_groupby_row _ _ _ _ _ AggCount).
  - unfold manager_data.
    rewrite (agg_col_groupby_agg _ _ _ _ AggCount) by done. cbn [aggregate].
    trans (fsum (fnum_of_Z <$>
                   ((λ k, col_count (df_col (group "담당자" k d) "과정명"))
                      <$> group_keys "담당자" d))).
    { by rewrite <- list_fmap_compose. }
    rewrite fsum_fnum_of_Z. f_equal.
    unfold group, dropna, mask, df_col. cbn [rows]. cbn beta.
    rewrite col_count_weights.
    rewrite (zsum_fmap_ext _
      (λ k, zsum ((λ r, if notna (at_col "과정명" r) then 1 else 0)
                    <$> filter (λ r, bool_decide (at_col "담당자" r = k)) (rows d))))
      by (intros k _; apply col_count_weights).
    rewrite group_weights_add_up by apply NoDup_group_keys. do 2 f_equal.
    apply filter_ext_in. intros r Hr. rewrite elem_of_group_keys.
    split.
    + intros [_ Hna]. by destruct (at_col "담당자" r).
    + intros Hna. split; [by apply list_elem_of_fmap_2|].
      by destruct (at_col "담당자" r).
Qed.


(** ** The sections on a table without rows *)

(** The events of the sections, section by section. *)
Lemma render_out s :
  (render s).1
  = [StTitle "HRD 운영 실적 대시보드"]
    ++ (overview s).1 ++ (monthly s).1 ++ (by_category s).1
    ++ (by_course_type
          {| df := df s; filtered_df := prepare_metrics (filtered_df s) |}).1
    ++ (by_manager
          {| df := df s; filtered_df := prepare_metrics (filtered_df s) |}).1
    ++ (detail
          {| df := df s; filtered_df := prepare_metrics (filtered_df s) |}).1.
Proof.
  destruct (overview_spec s) as (o1 & H1 & _).
  destruct (monthly_spec s) as (o2 & H2 & _).
  destruct (by_category_spec s) as (o3 & H3 & _).
  set (s' := {| df := df s; filtered_df := prepare_metrics (filtered_df s) |}) in *.
  destruct (by_course_type_spec s') as (o4 & H4 & _).
  destruct (by_manager_spec s') as (o5 & H5 & _).
  destruct (detail_spec s') as (o6 & H6 & _).
  rewrite H1, H2, H3, H4, H5, H6. cbn [fst].
  assert (render s = ([StTitle "HRD 운영 실적 대시보드"]
                      ++ o1 ++ o2 ++ o3 ++ o4 ++ o5 ++ o6, inr s')) as ->; [|done].
  unfold render.
  eapply script_bind_inr; [reflexivity|].
  eapply script_bind_inr; [exact H1|].
  eapply script_bind_inr; [exact H2|].
  eapply script_bind_inr; [exact H3|].
  eapply script_bind_inr; [exact H4|].
  eapply script_bind_inr; [exact H5|].
  exact H6.
Qed.

Lemma df_col_empty d c : rows d = [] → df_col d c = [].
Proof. unfold df_col. by intros ->. Qed.

Lemma groupby_agg_empty c spec d : rows d = [] → groupby_agg c spec d = [].
Proof.
  intros H. unfold groupby_agg, group_keys. by rewrite df_col_empty.
Qed.

Lemma rows_prepare_metrics_empty d :
  rows d = [] → rows (prepare_metrics d) = [].
Proof.
  intros H. apply length_zero_iff_nil. unfold prepare_metrics.
  by rewrite length_rows_prepare, H.
Qed.

Lemma fpos_fsum_nil : fpos (fsum []) = false.
Proof. by vm_compute. Qed.

Lemma charts_5_nil :
  concat (chart_5 [] <$> score_5)
  = [StInfo "'과정만족도' 데이터가 없습니다.";
     StInfo "'교육내용' 데이터가 없습니다.";
     StInfo "'교육방법' 데이터가 없습니다."].
Proof. by vm_compute. Qed.

Lemma charts_pct_nil :
  (foldl chart_pct ([], []) score_pct).2
  = [StInfo "'긍정응답율' 데이터가 없습니다.";
     StInfo "'과정NPS' 데이터가 없습니다.";
     StInfo "'현업적용' 데이터가 없습니다."].
Proof. by vm_compute. Qed.

Lemma overview_empty s :
  rows (filtered_df s) = [] →
  (overview s).1
  = [StHeader "1. 전체 운영 실적 개요";
     Metric "총 과정 수" (fnum_of_Z 0); Metric "총 참석인원" (fnum_of_Z 0);
     Metric "총 이수인원" (fnum_of_Z 0); Metric "전체 수료율" (fnum_of_Z 0)].
Proof.
  intros H. unfold overview. run_script. cbn [fst].
  unfold metric_if_any, completion_rate, len.
  rewrite !(df_col_empty _ _ H), H. reflexivity.
Qed.

Lemma monthly_empty s :
  rows (filtered_df s) = [] →
  (monthly s).1
  = [StHeader "2. 월별 실적 분석"; PlotlyChart "월별 참석/이수 인원 추이" []].
Proof.
  intros H. unfold monthly. run_script. cbn [fst].
  unfold monthly_data. rewrite !(groupby_agg_empty _ _ _ H).
  change (agg_col [] ?c) with (@nil fnum). by rewrite fpos_fsum_nil.
Qed.

Lemma by_category_empty s :
  rows (filtered_df s) = [] →
  (by_category s).1
  = [StHeader "3. 카테고리별 실적 분석"; PlotlyChart "카테고리별 참석인원" [];
     StInfo "'과정만족도' 데이터가 없습니다.";
     StInfo "'교육내용' 데이터가 없습니다.";
     StInfo "'교육방법' 데이터가 없습니다.";
     StInfo "'긍정응답율' 데이터가 없습니다.";
     StInfo "'과정NPS' 데이터가 없습니다.";
     StInfo "'현업적용' 데이터가 없습니다."].
Proof.
  intros H. unfold by_category. run_script. cbn [fst df filtered_df].
  unfold category_data.
  rewrite !(groupby_agg_empty _ _ _ (rows_prepare_metrics_empty _ H)).
  by rewrite charts_5_nil, charts_pct_nil.
Qed.

Lemma by_course_type_empty s :
  rows (filtered_df s) = [] →
  (by_course_type s).1
  = [StHeader "4. 과정 유형별 실적 분석";
     PlotlyChart "과정 유형별 참석인원 비중" [];
     PlotlyChart "과정 유형별 수료율" []].
Proof.
  intros H. unfold by_course_type. run_script. cbn [fst].
  unfold course_type_data. by rewrite !(groupby_agg_empty _ _ _ H).
Qed.

Lemma by_manager_empty s :
  rows (filtered_df s) = [] →
  (by_manager s).1
  = [StHeader "5. 담당자별 실적 분석";
     PlotlyChart "담당자별 관리 과정 수" [];
     PlotlyChart "담당자별 수료율" []].
Proof.
  intros H. unfold by_manager. run_script. cbn [fst].
  unfold manager_data. by rewrite !(groupby_agg_empty _ _ _ H).
Qed.

(** X12: when the filter leaves no row, the sections raise nothing and
    show: the four KPI cards with 0, none of the optional cards, every
    chart of sums and rates without a point, the no-data message for each
    of the six metrics of the category analysis, and the detail table. *)
Theorem empty_table_rendering s :
  rows (filtered_df s) = [] →
  render s
  = (empty_rendering (prepare_metrics (filtered_df s)),
     inr {| df := df s; filtered_df := prepare_metrics (filtered_df s) |}).
Proof.
  intros H. destruct (render_spec s) as (out & Hr & _).
  rewrite Hr. f_equal. apply (f_equal fst) in Hr. cbn [fst] in Hr.
  rewrite <- Hr, render_out.
  pose proof (rows_prepare_metrics_empty _ H) as H'.
  rewrite (overview_empty s H), (monthly_empty s H), (by_category_empty s H).
  rewrite (by_course_type_empty
             {| df := df s; filtered_df := prepare_metrics (filtered_df s) |} H').
  rewrite (by_manager_empty
             {| df := df s; filtered_df := prepare_metrics (filtered_df s) |} H').
  reflexivity.
Qed.

(** The theorem at [sheet] with the category set to a value that no row
    has. *)
Lemma empty_table_rendering_witness :
  rows (filtered_df sheet_filtered_out) = []
  ∧ render sheet_filtered_out
    = (empty_rendering (prepare_metrics (filtered_df sheet_filtered_out)),
       inr {| df := df sheet_filtered_out;
              filtered_df := prepare_metrics (filtered_df sheet_filtered_out) |}).
Proof.
  assert (rows (filtered_df sheet_filtered_out) = []) as H by (by vm_compute).
  split; [exact H | exact (empty_table_rendering sheet_filtered_out H)].
Defined.


(** ** Category analysis: when the no-data message is shown *)

Lemma Forall_df_col_group (P : cell → Prop) c k d m :
  Forall P (df_col d m) → Forall P (df_col (group c k d) m).
Proof.
  unfold df_col, group, mask. cbn [rows].
  rewrite !Forall_fmap, !Forall_forall.
  intros H r Hr%list_elem_of_filter. apply H, Hr.
Qed.

Lemma col_mean_nothing l :
  Forall (λ x, x = CNaN ∨ x = CInt 0) l →
  col_mean l = FNaN ∨ col_mean l = FNum 0%Qc.
Proof.
  intros Hl. unfold col_mean.
  assert (zsum (omap cell_value l) = 0) as Hsum.
  { induction Hl as [|x l [->| ->] _ IH]; [done|exact IH|].
    cbn. unfold zsum in IH. by rewrite IH. }
  destruct (omap cell_value l) as [|z zs]; [by left|]. right.
  rewrite Hsum, Z2Qc_inj_0. f_equal. unfold Qcdiv. apply Qcmult_0_l.
Qed.

Lemma fpos_fsum_nothing (l : list fnum) :
  Forall (λ x, x = FNaN ∨ x = FNum 0%Qc) l → fpos (fsum l) = false.
Proof.
  intros Hl. assert (fsum l = FNum 0%Qc) as ->.
  { unfold fsum. induction Hl as [|x l [->| ->] _ IH].
    - unfold fnum_of_Z. cbn. by rewrite Z2Qc_inj_0.
    - by rewrite filter_cons_False by (cbn; tauto).
    - rewrite filter_cons_True by done. cbn [foldr]. rewrite IH. cbn.
      by rewrite Qcplus_0_l. }
  cbn. apply bool_decide_eq_false. by intros ?%Qclt_not_eq.
Qed.

Lemma has_data_5_nothing d col :
  col ∈ score_5 →
  Forall (λ x, x = CNaN ∨ x = CInt 0) (df_col d col) →
  has_data_5 (category_data d) col = false.
Proof.
  intros Hcol Hall. unfold has_data_5. apply andb_false_iff. right.
  apply fpos_fsum_nothing. unfold category_data.
  rewrite (agg_col_groupby_agg _ _ _ _ AggMean).
  2:{ unfold score_5 in Hcol. rewrite !elem_of_cons in Hcol.
      destruct_or!; subst; first [done | by apply elem_of_nil in Hcol]. }
  apply Forall_fmap, Forall_true. intros k. cbn [aggregate].
  by apply col_mean_nothing, Forall_df_col_group.
Qed.

Lemma chart_5_nothing d col :
  col ∈ score_5 →
  Forall (λ x, x = CNaN ∨ x = CInt 0) (df_col d col) →
  chart_5 (category_data d) col
  = [StInfo ("'" +:+ col +:+ "' 데이터가 없습니다.")].
Proof.
  intros Hcol Hall. unfold chart_5. rewrite has_data_5_nothing by done.
  rewrite bool_decide_eq_true_2; [done|].
  unfold score_5 in Hcol. rewrite !elem_of_cons in Hcol.
  destruct_or!; subst; first [compute_done | by apply elem_of_nil in Hcol].
Qed.

(** A 5-point metric that the sheet lacks reaches the category analysis as
    a column of NaN, or of 0 for the satisfaction. *)
Lemma metric_absent_nothing d sel col :
  col ∈ score_5 → has_col col d = false →
  Forall (λ x, x = CNaN ∨ x = CInt 0)
    (df_col (prepare_metrics (filtered_sheet d sel)) col).
Proof.
  intros Hcol Hno. unfold prepare_metrics.
  rewrite df_col_prepare_in; [|apply NoDup_metrics|].
  2:{ unfold 성과지표. apply elem_of_app. by left. }
  rewrite has_col_filtered_sheet.
  destruct (decide (col = "과정만족도")) as [->|Hne].
  - destruct (satisfaction_normalize d) as [-> _].
    rewrite Forall_fmap. unfold filtered_sheet.
    apply Forall_df_col_apply_filters.
    rewrite (df_col_normalize_optional _ _ 0) by compute_done. rewrite Hno.
    apply Forall_replicate. by right.
  - assert (has_col col (normalize d) = false) as ->.
    { apply bool_decide_eq_false. rewrite elem_of_columns_normalize.
      apply bool_decide_eq_false in Hno. intros [?|Hin]; [done|].
      unfold score_5 in Hcol. rewrite !elem_of_cons in Hcol.
      destruct_or!; subst; try done;
        [revert Hin; change (¬ (?x ∈ ?l)) with (x ∉ l); compute_done..
        |by apply elem_of_nil in Hcol]. }
    apply Forall_replicate. by left.
Qed.

(** X13: for a 5-point metric whose cells in the table of the category
    analysis are all missing or 0, the section shows the no-data message
    and no chart; this is so for every 5-point metric that the sheet
    lacks, the satisfaction included. *)
Theorem no_data_message col :
  col ∈ score_5 →
  (∀ d, Forall (λ x, x = CNaN ∨ x = CInt 0) (df_col d col) →
        chart_5 (category_data d) col
        = [StInfo ("'" +:+ col +:+ "' 데이터가 없습니다.")])
  ∧ (∀ d sel, has_col col d = false →
        chart_5 (category_data (prepare_metrics (filtered_sheet d sel))) col
        = [StInfo ("'" +:+ col +:+ "' 데이터가 없습니다.")]).
Proof.
  intros Hcol. split.
  - intros d. by apply chart_5_nothing.
  - intros d sel Hno. by apply chart_5_nothing, metric_absent_nothing.
Qed.

(** The theorem at the content score, which [sheet] lacks. *)
Lemma no_data_message_witness :
  "교육내용" ∈ score_5
  ∧ chart_5 (category_data (prepare_metrics (filtered_sheet sheet no_filter)))
      "교육내용"
    = [StInfo ("'" +:+ "교육내용" +:+ "' 데이터가 없습니다.")].
Proof.
  assert ("교육내용" ∈ score_5) as H by compute_done.
  split; [exact H|].
  by apply (proj2 (no_data_message "교육내용" H) sheet no_filter).
Defined.


(** ** Sidebar: when the values of a facet can be sorted *)

Lemma sorted_text l :
  Forall (λ k, is_str k = true) l →
  ∃ l', sorted l = SortOk l' ∧ l' ≡ₚ l ∧ StronglySorted cell_le l'.
Proof.
  intros Hl. unfold sorted. case_bool_decide as Hlen.
  - exists l. split_and!; [done..|].
    destruct l as [|x [|y l]]; [constructor|by repeat constructor|].
    cbn in Hlen. lia.
  - exists (merge_sort cell_le l).
    assert (forallb is_str l = true) as ->.
    { apply forallb_forall. intros k Hk%list_elem_of_In.
      rewrite Forall_forall in Hl. by apply Hl. }
    split_and!; [done|apply merge_sort_Permutation|].
    apply StronglySorted_merge_sort; apply _.
Qed.

Lemma forallb_false_elem {A} (f : A → bool) (l : list A) :
  forallb f l = false → ∃ k, k ∈ l ∧ f k = false.
Proof.
  induction l as [|x l IH]; [done|]. cbn. destruct (f x) eqn:Hx.
  - intros (k & Hk & Hf)%IH. exists k. split; [by right|done].
  - intros _. exists x. split; [by left|done].
Qed.

Lemma sorted_type_error l :
  sorted l = SortTypeError
  ↔ (∃ s, CStr s ∈ l) ∧ (∃ k, k ∈ l ∧ is_str k = false).
Proof.
  unfold sorted. split.
  - case_bool_decide; [done|].
    destruct (forallb is_str l) eqn:Hall; [done|].
    destruct (forallb is_int l); [done|].
    destruct (existsb is_str l) eqn:Hex; [|done]. intros _. split.
    + apply existsb_exists in Hex as ([z|s|] & Hin & Hs); try done.
      exists s. by apply list_elem_of_In.
    + by apply forallb_false_elem in Hall.
  - intros [[s Hs] (k & Hk & Hnot)].
    rewrite bool_decide_eq_false_2.
    2:{ destruct l as [|x [|y l]]; cbn; [by apply elem_of_nil in Hs| |lia].
        apply list_elem_of_singleton in Hs, Hk. by subst. }
    assert (forallb is_str l = false) as ->.
    { apply not_true_iff_false. rewrite forallb_forall. intros H.
      rewrite H in Hnot; [done|]. by apply list_elem_of_In. }
    assert (forallb is_int l = false) as ->.
    { apply not_true_iff_false. rewrite forallb_forall. intros H.
      apply list_elem_of_In, H in Hs. done. }
    assert (existsb is_str l = true) as ->; [|done].
    apply existsb_exists. exists (CStr s). split; [|done].
    by apply list_elem_of_In.
Qed.

Lemma facet_values_text d c :
  Forall (λ k, is_str k = true) (df_col d c) →
  ∃ l, sorted (unique (df_col d c)) = SortOk l
       ∧ NoDup l ∧ StronglySorted cell_lt l
       ∧ ∀ k, k ∈ l ↔ k ∈ df_col d c.
Proof.
  intros Hl. destruct (sorted_text (unique (df_col d c))) as (l & Hs & Hp & Hso).
  { apply Forall_forall. intros k Hk. apply (proj1 (elem_of_unique _ _)) in Hk.
    rewrite Forall_forall in Hl. exact (Hl k Hk). }
  assert (NoDup l) as Hnd by (rewrite Hp; apply NoDup_unique).
  exists l. split_and!; [done..|by apply StronglySorted_strict|].
  intros k. by rewrite Hp, elem_of_unique.
Qed.

(** X14: the values of a facet whose column holds text only are offered
    without duplicates, in ascending order, and are exactly the values of
    the column; this is always so for the month of a loaded table.  A
    facet raises a type error exactly when its column holds a text
    together with a number or a missing value. *)
Theorem facet_values_sorted d :
  (∀ c, Forall (λ k, is_str k = true) (df_col d c) →
     ∃ l, sorted (unique (df_col d c)) = SortOk l
          ∧ NoDup l ∧ StronglySorted cell_lt l
          ∧ ∀ k, k ∈ l ↔ k ∈ df_col d c)
  ∧ (∃ l, sorted (unique (df_col (normalize d) "시작월")) = SortOk l
          ∧ NoDup l ∧ StronglySorted cell_lt l
          ∧ ∀ k, k ∈ l ↔ k ∈ df_col (normalize d) "시작월")
  ∧ (∀ c, sorted (unique (df_col d c)) = SortTypeError
          ↔ (∃ s, CStr s ∈ df_col d c)
            ∧ (∃ k, k ∈ df_col d c ∧ is_str k = false)).
Proof.
  split_and!.
  - intros c. apply facet_values_text.
  - apply facet_values_text. eapply Forall_impl; [apply month_normalize_written|].
    by intros k (s & -> & _).
  - intros c. rewrite sorted_type_error.
    by setoid_rewrite elem_of_unique.
Qed.


(** ** The run: order of the sections, the detail table *)

Lemma headers_app out1 out2 : headers (out1 ++ out2) = headers out1 ++ headers out2.
Proof. apply omap_app. Qed.

Lemma headers_metric_if_any d c label value :
  headers (metric_if_any d c label value) = [].
Proof. unfold metric_if_any. by case_bool_decide. Qed.

Lemma headers_chart_5 data cols : headers (concat (chart_5 data <$> cols)) = [].
Proof.
  induction cols as [|col cols IH]; [done|].
  rewrite fmap_cons, concat_cons, headers_app, IH. unfold chart_5.
  case_bool_decide; [|done]. by destruct (has_data_5 data col).
Qed.

Lemma headers_chart_pct cols acc :
  headers acc.2 = [] → headers (foldl chart_pct acc cols).2 = [].
Proof.
  revert acc. induction cols as [|col cols IH]; intros [data out] Hacc; [done|].
  cbn [foldl]. apply IH. unfold chart_pct. case_bool_decide; [|done].
  cbn [snd] in *. rewrite headers_app, Hacc. by destruct (fpos _).
Qed.

Lemma headers_render s :
  headers (render s).1
  = ["1. 전체 운영 실적 개요"; "2. 월별 실적 분석"; "3. 카테고리별 실적 분석";
     "4. 과정 유형별 실적 분석"; "5. 담당자별 실적 분석"; "상세 데이터"].
Proof.
  rewrite render_out, !headers_app.
  assert (headers (overview s).1 = ["1. 전체 운영 실적 개요"]) as ->.
  { unfold overview. run_script. cbn [fst].
    by rewrite !headers_app, !headers_metric_if_any. }
  assert (headers (monthly s).1 = ["2. 월별 실적 분석"]) as ->.
  { unfold monthly. run_script. cbn [fst]. rewrite !headers_app.
    by destruct (_ || _). }
  assert (headers (by_category s).1 = ["3. 카테고리별 실적 분석"]) as ->.
  { unfold by_category. run_script. cbn [fst].
    rewrite !headers_app, headers_chart_5. by rewrite headers_chart_pct. }
  reflexivity.
Qed.

Lemma sidebar_events d out u :
  sidebar d = (out, inr u) →
  ∃ boxes, out = SidebarTitle "필터" :: boxes ∧ headers boxes = [].
Proof.
  unfold sidebar. intros H.
  apply script_bind_inv in H as (o0 & [] & oa & ->%emit_inr & H & ->).
  apply script_bind_inv in H as (o1 & [] & ob & (l1 & S1 & ->)%facet_inr & H & ->).
  apply script_bind_inv in H as (o2 & [] & oc & (l2 & S2 & ->)%facet_inr & H & ->).
  apply script_bind_inv in H as (o3 & [] & od & (l3 & S3 & ->)%facet_inr & H & ->).
  apply facet_inr in H as (l4 & S4 & ->). by eexists.
Qed.

(** What a run that reaches the end of the script emits. *)
Lemma run_app_events src sel out s :
  run_app src sel = (out, inr s) →
  ∃ boxes,
    out = [SetPageConfig; SidebarTitle "필터"] ++ boxes
          ++ (render {| df := df s; filtered_df := apply_filters (df s) sel |}).1
    ∧ headers boxes = []
    ∧ filtered_df s = prepare_metrics (apply_filters (df s) sel).
Proof.
  unfold run_app. intros H.
  apply script_bind_inv in H as (o0 & [] & oa & ->%emit_inr & H & ->).
  apply script_bind_inv in H as (o1 & d & ob & Hload & H & ->).
  apply script_bind_inv in H as (side & [] & rest & Hside & H & ->).
  unfold load in Hload. destruct (load_data src) as [o' [d'|]] eqn:Hl.
  2:{ pose proof (f_equal snd Hload) as Hd. by cbn [snd] in Hd. }
  pose proof (f_equal fst Hload) as Ho. pose proof (f_equal snd Hload) as Hd.
  cbn [fst snd] in Ho, Hd. apply (inj inr) in Hd. subst o' d'.
  apply load_data_Some in Hl as (d0 & _ & -> & _ & _).
  destruct (render_spec {| df := d; filtered_df := apply_filters d sel |})
    as (rest' & Hr & _).
  rewrite Hr in H.
  pose proof (f_equal fst H) as Ho. pose proof (f_equal snd H) as Hs.
  cbn [fst snd df filtered_df] in Ho, Hs. apply (inj inr) in Hs. subst rest s.
  cbn [df filtered_df]. rewrite Hr. cbn [fst].
  apply sidebar_events in Hside as (boxes & -> & Hb).
  exists boxes. by split_and!.
Qed.

(** X15: a run that reaches the end of the script starts with the page
    configuration, shows the five sections and the detail table in this
    order, and ends with the detail table, which shows [filtered_df] as
    the category analysis has left it, with the prepared metric columns,
    not as the filter built it. *)
Theorem completed_run_sections src sel out s :
  run_app src sel = (out, inr s) →
  head out = Some SetPageConfig
  ∧ headers out
    = ["1. 전체 운영 실적 개요"; "2. 월별 실적 분석"; "3. 카테고리별 실적 분석";
       "4. 과정 유형별 실적 분석"; "5. 담당자별 실적 분석"; "상세 데이터"]
  ∧ last out
    = Some (StDataframe (prepare_metrics (apply_filters (df s) sel))).
Proof.
  intros (boxes & -> & Hb & Hfd)%run_app_events. split_and!.
  - done.
  - rewrite !headers_app, Hb, headers_render. reflexivity.
  - rewrite render_out, !app_assoc. unfold detail. run_script. cbn [fst].
    cbn [filtered_df]. rewrite app_nil_r.
    change [StHeader "상세 데이터";
            StDataframe (prepare_metrics (apply_filters (df s) sel))]
      with ([StHeader "상세 데이터"]
            ++ [StDataframe (prepare_metrics (apply_filters (df s) sel))]).
    rewrite app_assoc. apply last_snoc.
Qed.

(** The theorem at the run over [sheet] without any filter. *)
Lemma completed_run_sections_witness :
  final_state (run_app (Sheet1 sheet) no_filter) = Some sheet_final
  ∧ head (run_app (Sheet1 sheet) no_filter).1 = Some SetPageConfig
  ∧ headers (run_app (Sheet1 sheet) no_filter).1
    = ["1. 전체 운영 실적 개요"; "2. 월별 실적 분석"; "3. 카테고리별 실적 분석";
       "4. 과정 유형별 실적 분석"; "5. 담당자별 실적 분석"; "상세 데이터"]
  ∧ last (run_app (Sheet1 sheet) no_filter).1
    = Some (StDataframe
              (prepare_metrics (apply_filters (df sheet_final) no_filter))).
Proof.
  split; [exact sheet_reaches_end|].
  exact (completed_run_sections (Sheet1 sheet) no_filter _ _
           (final_state_Some _ _ sheet_reaches_end)).
Defined.


(** ** Overview: the cards of the averages *)







(** ** Category analysis: the percentage charts *)











(** ** The sections after the category analysis *)

Lemma fmap_filter_ext (c m : string) (k : cell) (l l' : list row) :
  at_col c <$> l = at_col c <$> l' →
  at_col m <$> l = at_col m <$> l' →
  at_col m <$> filter (λ r, bool_decide (at_col c r = k)) l
  = at_col m <$> filter (λ r, bool_decide (at_col c r = k)) l'.
Proof.
  revert l'. induction l as [|r l IH]; intros [|r' l'] Hc Hm; try done.
  rewrite !fmap_cons in Hc, Hm.
  pose proof (f_equal head Hc) as Hc1. pose proof (f_equal tail Hc) as Hc2.
  pose proof (f_equal head Hm) as Hm1. pose proof (f_equal tail Hm) as Hm2.
  cbn in Hc1, Hc2, Hm1, Hm2. apply (inj Some) in Hc1, Hm1.
  rewrite !filter_cons, Hc1. destruct (decide _).
  - rewrite !fmap_cons, Hm1. f_equal. by apply IH.
  - by apply IH.
Qed.

(** An aggregation reads the key column and the aggregated columns, and
    nothing else of the table. *)
Lemma groupby_agg_ext c (spec : list (string * aggfun)) d d' :
  df_col d c = df_col d' c →
  (∀ m, m ∈ spec.*1 → df_col d m = df_col d' m) →
  groupby_agg c spec d = groupby_agg c spec d'.
Proof.
  intros Hc Hspec. unfold groupby_agg, group_keys. rewrite <- Hc.
  apply list_fmap_ext. intros _ k _. f_equal. f_equal.
  apply list_fmap_ext. intros i [m f] Hi. cbn [fst snd]. do 2 f_equal.
  unfold df_col, group, mask. cbn [rows].
  apply fmap_filter_ext; [exact Hc|].
  apply Hspec. apply list_elem_of_fmap. exists (m, f).
  split; [done|]. by eapply list_elem_of_lookup_2.
Qed.

(** On a loaded and filtered table the preparation of the metrics leaves
    the columns that the later sections read as they are. *)
Lemma df_col_prepare_metrics_kept d sel c :
  c ∈ ["과정유형"; "담당자"; "과정명"; "참석인원"; "이수인원"; "과정만족도";
       "현업적용율"] →
  df_col (prepare_metrics (filtered_sheet d sel)) c
  = df_col (filtered_sheet d sel) c.
Proof.
  intros Hc. unfold prepare_metrics.
  destruct (decide (c = "과정만족도")) as [->|Hne].
  - rewrite df_col_prepare_in; [|apply NoDup_metrics|compute_done].
    rewrite has_col_filtered_sheet.
    destruct (satisfaction_normalize d) as [-> Hint].
    apply (Forall_df_col_apply_filters _ _ sel) in Hint.
    fold (filtered_sheet d sel) in Hint.
    induction Hint as [|x l Hx _ IH]; [done|].
    by rewrite fmap_cons, IH, to_numeric_is_int.
  - apply df_col_prepare_other. rewrite !elem_of_cons in Hc.
    destruct_or!; subst; first [compute_done | done | by apply elem_of_nil in Hc].
Qed.

(** X18: the category analysis changes [filtered_df] in place, and the
    two sections after it aggregate the changed table; over a loaded and
    filtered table they show the same as they would over the table that the
    filter built, because the change leaves the columns they read as they
    are. *)
Theorem later_sections_unaffected d sel :
  course_type_data (prepare_metrics (filtered_sheet d sel))
  = course_type_data (filtered_sheet d sel)
  ∧ manager_data (prepare_metrics (filtered_sheet d sel))
    = manager_data (filtered_sheet d sel)
  ∧ (by_course_type {| df := normalize d;
                       filtered_df := prepare_metrics (filtered_sheet d sel) |}).1
    = (by_course_type {| df := normalize d;
                         filtered_df := filtered_sheet d sel |}).1
  ∧ (by_manager {| df := normalize d;
                   filtered_df := prepare_metrics (filtered_sheet d sel) |}).1
    = (by_manager {| df := normalize d;
                     filtered_df := filtered_sheet d sel |}).1.
Proof.
  assert (course_type_data (prepare_metrics (filtered_sheet d sel))
          = course_type_data (filtered_sheet d sel)) as Hct.
  { apply groupby_agg_ext.
    - apply df_col_prepare_metrics_kept. compute_done.
    - intros m Hm. apply df_col_prepare_metrics_kept.
      revert Hm. unfold agg_spec. cbn [fmap list_fmap fst].
      rewrite !elem_of_cons. intros Hm.
      destruct_or!; subst; first [compute_done | by apply elem_of_nil in Hm]. }
  assert (manager_data (prepare_metrics (filtered_sheet d sel))
          = manager_data (filtered_sheet d sel)) as Hmg.
  { apply groupby_agg_ext.
    - apply df_col_prepare_metrics_kept. compute_done.
    - intros m Hm. apply df_col_prepare_metrics_kept.
      revert Hm. unfold agg_spec. cbn [fmap list_fmap fst].
      rewrite !elem_of_cons. intros Hm.
      destruct_or!; subst; first [compute_done | by apply elem_of_nil in Hm]. }
  split_and!; [done..| |].
  - unfold by_course_type. run_script. cbn [fst filtered_df]. by rewrite Hct.
  - unfold by_manager. run_script. cbn [fst filtered_df]. by rewrite Hmg.
Qed.
